(** * skill-digest: the daily trigger worker and the pipeline driver

    Verification development for the repository lairulan/skill-digest.

    Definitions:
    - [Worker] embeds [cloudflare-worker/worker.js]: the function
      [triggerWorkflow] and the two handlers [scheduled] and [fetch] of the
      exported object.
    - [Ledger] and [Selector] model the publication ledger and the selection
      algorithm of [scripts/select_daily.py], which is not in the tree,
      from the design spec.
    - [Driver] embeds [scripts/daily-skill-digest.sh], the shell script that
      sequences fetch, select, generate, mark-published and publish, over
      the interface of the commands it runs.
    - [Sim] is a concrete world in which the driver runs against the
      modelled Python scripts.

    Properties: [WorkerFacts], [LedgerFacts], [SelectorFacts],
    [FilterFacts] (the text filters of the script),
    [DriverFacts] (the script on every machine) and [SimFacts] (runs in the
    modelled world); then [WorkerMore], [DriverMore] (the text filters),
    [RunMore] and [LogMore] (the commands and the log of a run). *)

From Stdlib Require Import List String Ascii Bool ZArith Lia Permutation.
From Stdlib Require Import DecimalString.
Import ListNotations.
Local Open Scope string_scope.
Set Warnings "-register-all".

(* ================================================================== *)
(** * The Cloudflare worker (cloudflare-worker/worker.js)              *)
(* ================================================================== *)

Module Worker.

(** JavaScript values as far as the worker builds them: object literals
    keep their properties in insertion order. *)
Inductive JsValue : Type :=
| JUndefined
| JBool (b : bool)
| JNum (n : Z)
| JStr (s : string)
| JObj (props : list (string * JsValue)).

(** Property read [o.k]: [undefined] on a missing property. *)
Fixpoint get_prop (k : string) (props : list (string * JsValue)) : JsValue :=
  match props with
  | [] => JUndefined
  | (k', v) :: rest => if String.eqb k k' then v else get_prop k rest
  end.

(** [env]: the bindings of the worker.  [env.GITHUB_TOKEN] is [undefined]
    ([None]) or a string. *)
Record Env : Type := { GITHUB_TOKEN : option string }.

(** JavaScript truthiness of [env.GITHUB_TOKEN]: [undefined] and the empty
    string are falsy. *)
Definition truthy (t : option string) : bool :=
  match t with
  | None => false
  | Some s => negb (String.eqb s "")
  end.

(** The argument of the global [fetch]. *)
Record FetchInit : Type := {
  init_url : string;
  init_method : string;
  init_headers : list (string * string);
  init_body : JsValue  (* the value handed to JSON.stringify *)
}.

(** A thrown value: an [Error] object, of which the code reads [.message]. *)
Record JsError : Type := { message : string }.

(** What the network answers: the promise of [fetch] rejects, or resolves to
    a response whose [.status] is a number and whose [.text()] resolves to
    the body or rejects. *)
Record NetResponse : Type := {
  status : Z;
  text : string + JsError
}.

Inductive FetchOutcome : Type :=
| Rejected (e : JsError)
| Resolved (r : NetResponse).

(** The world outside the worker: the network and the clock read by
    [new Date().toISOString()]. *)
Record World : Type := {
  network : FetchInit -> FetchOutcome;
  now_iso : string
}.

(** [JSON.stringify(value)] and [JSON.stringify(value, null, 2)] are kept
    symbolic: the text is determined by the value and the indentation. *)
Inductive JsonText : Type :=
| JSON_stringify (v : JsValue) (indent : nat).

(** Observable effects, in program order: a call of the global [fetch]
    with what it settled to, and a [console.log] of a template literal
    (its fixed prefix, then the interpolated text). *)
Inductive Effect : Type :=
| NetCall (i : FetchInit) (o : FetchOutcome)
| ConsoleLog (prefix : string) (t : JsonText).

(** Completion of a JavaScript computation. *)
Inductive Completion (A : Type) : Type :=
| Return (a : A)
| Throw (e : JsError).
Arguments Return {A} a.
Arguments Throw {A} e.

(** Computations: read the world, emit effects, return or throw. *)
Definition JS (A : Type) : Type := World -> Completion A * list Effect.

Definition ret {A} (a : A) : JS A := fun _ => (Return a, []).
Definition throw {A} (e : JsError) : JS A := fun _ => (Throw e, []).

Definition bind {A B} (m : JS A) (k : A -> JS B) : JS B :=
  fun w =>
    match m w with
    | (Return a, t1) => let (r, t2) := k a w in (r, (t1 ++ t2)%list)
    | (Throw e, t1) => (Throw e, t1)
    end.

Definition try_catch {A} (body : JS A) (handler : JsError -> JS A) : JS A :=
  fun w =>
    match body w with
    | (Return a, t1) => (Return a, t1)
    | (Throw e, t1) => let (r, t2) := handler e w in (r, (t1 ++ t2)%list)
    end.

Notation "x <- m ;; k" := (bind m (fun x => k))
  (at level 61, m at next level, right associativity).

(** [await fetch(url, init)] *)
Definition global_fetch (i : FetchInit) : JS NetResponse :=
  fun w =>
    let o := network w i in
    match o with
    | Rejected e => (Throw e, [NetCall i o])
    | Resolved r => (Return r, [NetCall i o])
    end.

(** [await response.text()] *)
Definition response_text (r : NetResponse) : JS string :=
  match text r with
  | inl s => ret s
  | inr e => throw e
  end.

(** [new Date().toISOString()] *)
Definition date_toISOString : JS string := fun w => (Return (now_iso w), []).

Definition console_log (prefix : string) (t : JsonText) : JS unit :=
  fun _ => (Return tt, [ConsoleLog prefix t]).

(** Interpolation [`${GITHUB_TOKEN}`] in a template literal. *)
Definition interpolate (t : option string) : string :=
  match t with
  | Some s => s
  | None => "undefined"
  end.

Definition REPO : string := "lairulan/skill-digest".

Definition dispatch_request (token : option string) : FetchInit :=
  {| init_url := "https://api.github.com/repos/" ++ REPO ++ "/dispatches";
     init_method := "POST";
     init_headers :=
       [ ("Authorization", "Bearer " ++ interpolate token);
         ("Accept", "application/vnd.github.v3+json");
         ("User-Agent", "Cloudflare-Worker-Skill-Digest");
         ("Content-Type", "application/json") ];
     init_body := JObj [ ("event_type", JStr "daily-skill-digest") ] |}.

(** [async function triggerWorkflow(env)] *)
Definition triggerWorkflow (env : Env) : JS JsValue :=
  let token := GITHUB_TOKEN env in
  if negb (truthy token) then
    ret (JObj [ ("success", JBool false);
                ("error", JStr "GITHUB_TOKEN not configured") ])
  else
    try_catch
      (response <- global_fetch (dispatch_request token) ;;
       if Z.eqb (status response) 204 then
         ts <- date_toISOString ;;
         ret (JObj [ ("success", JBool true);
                     ("message", JStr "Workflow triggered successfully");
                     ("timestamp", JStr ts) ])
       else
         body <- response_text response ;;
         ret (JObj [ ("success", JBool false);
                     ("status", JNum (status response));
                     ("error", JStr body) ]))
      (fun error =>
         ret (JObj [ ("success", JBool false);
                     ("error", JStr (message error)) ])).

(** [new Response(body, { headers })] *)
Record HttpResponse : Type := {
  resp_body : JsonText;
  resp_headers : list (string * string)
}.

(** The incoming request; [url_pathname] is [new URL(request.url).pathname]
    as the runtime's URL parser gives it. *)
Record Request : Type := { url_pathname : string }.

(** [async scheduled(event, env, ctx)] *)
Definition scheduled (env : Env) : JS unit :=
  result <- triggerWorkflow env ;;
  console_log "Skill Digest trigger result: " (JSON_stringify result 0).

(** The landing page served on every other path. *)
Definition info_page : JsValue :=
  JObj [ ("name", JStr "每日 Skill 精选触发器");
         ("endpoints", JObj [ ("/trigger", JStr "手动触发 workflow") ]);
         ("cron", JStr "0 4 * * * (每天北京时间 12:00)");
         ("repo", JStr "lairulan/skill-digest") ].

(** [async fetch(request, env, ctx)] *)
Definition fetch (request : Request) (env : Env) : JS HttpResponse :=
  if String.eqb (url_pathname request) "/trigger" then
    result <- triggerWorkflow env ;;
    ret {| resp_body := JSON_stringify result 2;
           resp_headers := [ ("Content-Type", "application/json") ] |}
  else
    ret {| resp_body := JSON_stringify info_page 2;
           resp_headers := [ ("Content-Type", "application/json") ] |}.

(** What a run leaves behind. *)
Definition effects {A} (m : JS A) (w : World) : list Effect := snd (m w).
Definition completion {A} (m : JS A) (w : World) : Completion A := fst (m w).

Definition is_net_call (e : Effect) : bool :=
  match e with NetCall _ _ => true | ConsoleLog _ _ => false end.

(** The network calls among the effects. *)
Definition net_calls {A} (m : JS A) (w : World) : list Effect :=
  filter is_net_call (effects m w).

(** The GitHub API answered a call with HTTP status 204. *)
Definition answered_204 (e : Effect) : bool :=
  match e with
  | NetCall _ (Resolved r) => Z.eqb (status r) 204
  | _ => false
  end.

(** ** Sample worlds *)

Definition env_with_token : Env := {| GITHUB_TOKEN := Some "ghp_token" |}.
Definition env_without_token : Env := {| GITHUB_TOKEN := None |}.

(** GitHub accepts the dispatch. *)
Definition world_accepting : World :=
  {| network := fun _ => Resolved {| status := 204; text := inl "" |};
     now_iso := "2026-01-27T04:00:00.000Z" |}.

(** GitHub refuses the token. *)
Definition world_refusing : World :=
  {| network := fun _ =>
       Resolved {| status := 401; text := inl "Bad credentials" |};
     now_iso := "2026-01-27T04:00:00.000Z" |}.

(** The network is down. *)
Definition world_offline : World :=
  {| network := fun _ => Rejected {| message := "Network connection lost" |};
     now_iso := "2026-01-27T04:00:00.000Z" |}.

Definition trigger_request : Request := {| url_pathname := "/trigger" |}.

(** The dispatch that both triggers are to send. *)
Definition is_dispatch (e : Effect) : Prop :=
  match e with
  | NetCall i _ =>
      init_url i = "https://api.github.com/repos/lairulan/skill-digest/dispatches"
      /\ init_method i = "POST"
      /\ init_body i = JObj [ ("event_type", JStr "daily-skill-digest") ]
  | ConsoleLog _ _ => True
  end.

(** ** Reading requests and results *)

(** The value of a header in the [headers] object of a request. *)
Fixpoint get_header (k : string) (hs : list (string * string))
  : option string :=
  match hs with
  | [] => None
  | (k', v) :: rest => if String.eqb k k' then Some v else get_header k rest
  end.

(** A network call that carries the headers of the dispatch, with [token]
    as its bearer token. *)
Definition authorized_with (token : string) (e : Effect) : Prop :=
  match e with
  | NetCall i _ =>
      get_header "Authorization" (init_headers i) = Some ("Bearer " ++ token)
      /\ get_header "Accept" (init_headers i)
         = Some "application/vnd.github.v3+json"
      /\ get_header "User-Agent" (init_headers i)
         = Some "Cloudflare-Worker-Skill-Digest"
      /\ get_header "Content-Type" (init_headers i) = Some "application/json"
  | ConsoleLog _ _ => True
  end.

(** The response every path of the [fetch] handler builds around a JSON
    text. *)
Definition json_response (body : JsonText) : HttpResponse :=
  {| resp_body := body;
     resp_headers := [ ("Content-Type", "application/json") ] |}.

(** GitHub answers with status 500 and a body that cannot be read. *)
Definition world_broken_body : World :=
  {| network := fun _ =>
       Resolved {| status := 500;
                   text := inr {| message := "body stream interrupted" |} |};
     now_iso := "2026-01-27T04:00:00.000Z" |}.

End Worker.

(* ================================================================== *)
(** * The publication ledger (scripts/select_daily.py, not in the tree) *)
(* ================================================================== *)

Module Ledger.
Local Open Scope list_scope.

(** Calendar dates are written [YYYY-MM-DD], as [date '+%Y-%m-%d'] prints
    them; on that format the order of dates is the order of strings. *)
Definition Date : Type := string.

(** Modelled from the spec: the ledger entry written by
    [select_daily.py --mark-published], a file that is not in the tree.
    One entry per published item: identity, category and calendar date. *)
Record PublicationRecord : Type := {
  rec_identity : string;
  rec_category : string;
  publishedAt : Date
}.

(** Modelled from the spec: the ledger file [data/published_skills.json],
    an ordered sequence of records that only grows at its end. *)
Definition PublicationLedger : Type := list PublicationRecord.

(** Modelled from the spec: [contains(identity) -> bool] of the missing
    [select_daily.py]. *)
Definition contains (identity : string) (L : PublicationLedger) : bool :=
  existsb (fun r => String.eqb (rec_identity r) identity) L.

(** Modelled from the spec: [markPublished(identity, category, date)] of
    the missing [select_daily.py]; an existing record for the identity is
    detected and the call is then a no-op, otherwise one record is
    appended. *)
Definition markPublished (identity category : string) (date : Date)
  (L : PublicationLedger) : PublicationLedger :=
  if contains identity L then L
  else L ++ [ {| rec_identity := identity;
                 rec_category := category;
                 publishedAt := date |} ].

(** The later of two records by [publishedAt]; of two records of one date
    the one appended later. *)
Definition later (best : option PublicationRecord) (r : PublicationRecord)
  : option PublicationRecord :=
  match best with
  | None => Some r
  | Some b => if String.ltb (publishedAt r) (publishedAt b) then Some b
              else Some r
  end.

(** Modelled from the spec: [mostRecentCategory() -> Category | none] of the
    missing [select_daily.py], the category of the most recently published
    record by [publishedAt] descending. *)
Definition mostRecentCategory (L : PublicationLedger) : option string :=
  option_map rec_category (fold_left later L None).

(** One call of [markPublished], as data. *)
Record MarkCall : Type := {
  call_identity : string;
  call_category : string;
  call_date : Date
}.

Definition apply_call (L : PublicationLedger) (c : MarkCall)
  : PublicationLedger :=
  markPublished (call_identity c) (call_category c) (call_date c) L.

(** The ledger after a history of calls, from the empty ledger. *)
Definition ledger_after (calls : list MarkCall) : PublicationLedger :=
  fold_left apply_call calls [].

Definition identities (L : PublicationLedger) : list string :=
  map rec_identity L.

End Ledger.

(* ================================================================== *)
(** * The selector (scripts/select_daily.py, not in the tree)          *)
(* ================================================================== *)

Module Selector.
Import Ledger.
Local Open Scope list_scope.

(** Modelled from the spec: the structured hints of a candidate item. *)
Record QualitySignals : Type := {
  official : bool;      (* officially maintained, not community *)
  has_manifest : bool   (* the repository holds a manifest file *)
}.

(** Modelled from the spec: one entry of the catalog cache
    [data/skill_cache.json], written by the missing [fetch_skills.py]. *)
Record CandidateItem : Type := {
  identity : string;
  name : string;
  category : string;
  sourceUrl : string;
  lastUpdatedAt : option Z;   (* a timestamp, or unknown *)
  qualitySignals : QualitySignals
}.

(** The catalog snapshot: the items of the mapping from identity to item,
    in the order the file lists them. *)
Definition Catalog : Type := list CandidateItem.

Definition unique_identities (c : Catalog) : Prop :=
  NoDup (map identity c).

(** Modelled from the spec: the output of one selector invocation. *)
Inductive SelectionResult : Type :=
| Selected (item : CandidateItem)
| NoEligibleItem.

(** Comparisons in which [Lt] reads "ranks above", and what makes one a
    strict total order. *)
Record rank_order {K : Type} (cmp : K -> K -> comparison) : Prop := {
  cmp_eq : forall x y, cmp x y = Eq -> x = y;
  cmp_antisym : forall x y, cmp y x = CompOpp (cmp x y);
  cmp_trans : forall x y z, cmp x y = Lt -> cmp y z = Lt -> cmp x z = Lt
}.

(** A flag that ranks its holders above the others. *)
Definition flag_cmp (a b : bool) : comparison :=
  match a, b with
  | true, false => Lt
  | false, true => Gt
  | _, _ => Eq
  end.

(** Freshness: the more recent timestamp ranks above, an unknown timestamp
    below every known one. *)
Definition freshness_cmp (a b : option Z) : comparison :=
  match a, b with
  | Some x, Some y => Z.compare y x
  | Some _, None => Lt
  | None, Some _ => Gt
  | None, None => Eq
  end.

(** Each level breaks the ties of the previous one. *)
Definition then_cmp (c1 c2 : comparison) : comparison :=
  match c1 with
  | Eq => c2
  | _ => c1
  end.

Definition pair_cmp {A B} (ca : A -> A -> comparison)
  (cb : B -> B -> comparison) (x y : A * B) : comparison :=
  then_cmp (ca (fst x) (fst y)) (cb (snd x) (snd y)).

(** Diversity: the category differs from the most recently published one.
    With an empty ledger no item is set apart. *)
Definition diverse (recent : option string) (i : CandidateItem) : bool :=
  match recent with
  | None => false
  | Some c => negb (String.eqb (category i) c)
  end.

(** The ranking key of an item, most significant level first: authority
    tier, freshness, category diversity, identity. *)
Definition RankKey : Type := bool * option Z * bool * string.

Definition rank_key (recent : option string) (i : CandidateItem) : RankKey :=
  (official (qualitySignals i), lastUpdatedAt i, diverse recent i, identity i).

Definition key_cmp : RankKey -> RankKey -> comparison :=
  pair_cmp (pair_cmp (pair_cmp flag_cmp freshness_cmp) flag_cmp)
           String.compare.

(** [outranks recent a b]: [a] is ranked strictly above [b]. *)
Definition outranks (recent : option string) (a b : CandidateItem) : bool :=
  match key_cmp (rank_key recent a) (rank_key recent b) with
  | Lt => true
  | _ => false
  end.

(** [a] is not ranked below [b]. *)
Definition not_below (recent : option string) (a b : CandidateItem) : Prop :=
  key_cmp (rank_key recent a) (rank_key recent b) <> Gt.

(** The top-ranked item of a list. *)
Fixpoint best (recent : option string) (l : list CandidateItem)
  : option CandidateItem :=
  match l with
  | [] => None
  | x :: rest =>
      match best recent rest with
      | None => Some x
      | Some y => if outranks recent x y then Some x else Some y
      end
  end.

(** Modelled from the spec: the per-date selection log of the re-entry
    rule, the selections already made and on which date, latest first. *)
Definition SelectionLog : Type := list (Date * CandidateItem).

(** The selection logged for a date, if any. *)
Fixpoint lookup_date (d : Date) (l : SelectionLog) : option CandidateItem :=
  match l with
  | [] => None
  | (d', i) :: rest => if String.eqb d d' then Some i else lookup_date d rest
  end.

Section WithClassifier.

(** Modelled from the spec: the content-type classification of the missing
    [select_daily.py], [true] on an installable skill and [false] on a
    tutorial, documentation or blog post; a semantic filter, so it stays a
    parameter. *)
Variable is_skill : CandidateItem -> bool.

(** Modelled from the spec: the eligibility filter of the selector. *)
Definition eligible (L : PublicationLedger) (i : CandidateItem) : bool :=
  negb (contains (identity i) L) && is_skill i.

(** Modelled from the spec: the ranking of the selector: filter the
    eligible items, rank them, return the top one or the explicit
    no-eligible-item outcome. *)
Definition rank_eligible (catalog : Catalog) (L : PublicationLedger)
  : SelectionResult :=
  match best (mostRecentCategory L) (filter (eligible L) catalog) with
  | Some i => Selected i
  | None => NoEligibleItem
  end.

(** Modelled from the spec: [selectForDate(date, catalog, ledger)] of the
    missing [select_daily.py], with its re-entry rule.  A selection already
    logged for the date and not yet marked published is returned unchanged,
    rather than re-running the ranking; otherwise the ranking runs.  The
    selection log is the persisted state the rule checks. *)
Definition selectForDate (log : SelectionLog) (date : Date)
  (catalog : Catalog) (L : PublicationLedger) : SelectionResult :=
  match lookup_date date log with
  | Some i =>
      if contains (identity i) L then rank_eligible catalog L
      else Selected i
  | None => rank_eligible catalog L
  end.

End WithClassifier.

(** A classifier by category, for the scenarios of the spec. *)
Definition by_category (i : CandidateItem) : bool :=
  negb (existsb (String.eqb (category i))
          ["docs"; "documentation"; "tutorial"; "blog"]).

End Selector.

(* ================================================================== *)
(** * The pipeline driver (scripts/daily-skill-digest.sh)              *)
(* ================================================================== *)

Module Driver.
Local Open Scope list_scope.

(** ** Text utilities of the script *)

Definition starts_with (c : ascii) (line : string) : bool :=
  match line with
  | String c' _ => Ascii.eqb c c'
  | EmptyString => false
  end.

(** [grep -E "^\["]: the lines that start with an opening bracket. *)
Definition grep_bracket (lines : list string) : list string :=
  filter (starts_with "["%char) lines.

(** [sed -n '/^{/,/^}/p']: print from a line that starts with an opening
    brace up to the next line that starts with a closing brace, both
    included; a later opening line starts a new range, and a range that is
    never closed runs to the end of the input. *)
Fixpoint sed_range (inside : bool) (lines : list string) : list string :=
  match lines with
  | [] => []
  | l :: rest =>
      if inside then l :: sed_range (negb (starts_with "}"%char l)) rest
      else if starts_with "{"%char l then l :: sed_range true rest
      else sed_range false rest
  end.

Definition sed_json_block (lines : list string) : list string :=
  sed_range false lines.

(** Every character of a string passes a test. *)
Fixpoint all_chars (p : ascii -> bool) (s : string) : bool :=
  match s with
  | EmptyString => true
  | String c rest => p c && all_chars p rest
  end.

(** The line feed. *)
Definition newline : ascii := "010"%char.

(** The letters of the options of bash's builtin [echo]. *)
Definition echo_flag (c : ascii) : bool :=
  Ascii.eqb c "n" || Ascii.eqb c "e" || Ascii.eqb c "E".

(** [echo] takes a leading argument for options when it is a dash followed
    by one or more of the letters [n], [e], [E] and nothing else. *)
Definition is_echo_option (arg : string) : bool :=
  match arg with
  | String c (String c' rest) =>
      Ascii.eqb c "-" && all_chars echo_flag (String c' rest)
  | _ => false
  end.

(** What [echo "$arg"] writes, bash's builtin with its one argument: the
    argument and a line feed; but an argument that is an option is
    swallowed, and then only the line feed is written, or nothing when the
    option holds [n].  Backslashes are written as they are. *)
Definition echo (arg : string) : string :=
  if is_echo_option arg then
    if all_chars (fun c => negb (Ascii.eqb c "n")) arg
    then String newline EmptyString
    else EmptyString
  else (arg ++ String newline EmptyString)%string.

(** [$( ... )]: the output of the command without its trailing line
    feeds. *)
Fixpoint strip_trailing_newlines (s : string) : string :=
  match s with
  | EmptyString => EmptyString
  | String c rest =>
      match strip_trailing_newlines rest with
      | EmptyString =>
          if Ascii.eqb c newline then EmptyString else String c EmptyString
      | String c' rest' => String c (String c' rest')
      end
  end.

Definition in_range (lo hi c : ascii) : bool :=
  (nat_of_ascii lo <=? nat_of_ascii c)%nat
  && (nat_of_ascii c <=? nat_of_ascii hi)%nat.

(** The bracket expression [a-zA-Z0-9_-], its ranges read as in the POSIX
    locale. *)
Definition safe_char (c : ascii) : bool :=
  in_range "a" "z" c || in_range "A" "Z" c || in_range "0" "9" c
  || Ascii.eqb c "_" || Ascii.eqb c "-".

(** [sed 's/ /-/g'] and [sed 's/\//-/g']: replace every occurrence of one
    character by a dash. *)
Fixpoint replace_char (from : ascii) (s : string) : string :=
  match s with
  | EmptyString => EmptyString
  | String c rest =>
      String (if Ascii.eqb c from then "-"%char else c) (replace_char from rest)
  end.

(** [sed 's/[^a-zA-Z0-9_-]//g']: delete every other character.  [sed]
    works line by line, so the line feeds of its input are not characters
    of any line and stay; every other byte outside the bracket expression
    goes, the bytes of a character outside ASCII among them (the name is
    text in the encoding of the locale, as Python printed it). *)
Fixpoint keep_safe (s : string) : string :=
  match s with
  | EmptyString => EmptyString
  | String c rest =>
      if safe_char c || Ascii.eqb c newline
      then String c (keep_safe rest) else keep_safe rest
  end.

(** [SAFE_SKILL_NAME]: [echo] of the name through the three [sed] filters
    of the script, in order, captured by [$( ... )]. *)
Definition sanitize (SKILL_NAME : string) : string :=
  strip_trailing_newlines
    (keep_safe (replace_char "/" (replace_char " " (echo SKILL_NAME)))).


(** Decimal text of a count, as [print(len(...))] writes it. *)
Definition show_nat (n : nat) : string :=
  NilZero.string_of_uint (Nat.to_uint n).

(** ** The commands the script runs *)

(** Arguments of [publish.py publish]. *)
Record PublishArgs : Type := {
  arg_appid : string;
  arg_title : string;
  arg_content_file : string;
  arg_author : string
}.

(** The external commands, named after their command lines. *)
Inductive Command : Type :=
| fetch_skills_refresh                       (* fetch_skills.py --refresh *)
| select_daily                               (* select_daily.py *)
| generate_article (output : string)         (* generate_article.py --output F *)
| select_daily_mark_published                (* select_daily.py --mark-published *)
| publish (script : string) (a : PublishArgs).  (* publish.py publish ... *)

(** One command that was run, with the exit status of its process. *)
Record Invocation : Type := {
  command : Command;
  exit_status : Z
}.

(** What a process hands back: the lines it printed on stdout and stderr
    and its exit status. *)
Record Finished : Type := {
  output : list string;
  status : Z
}.

(** The machine the script runs on.  [W] is everything outside the script:
    the files under [data/], the output directory, the clock, the network
    behind the Python scripts.  The Python scripts are not in the tree, so
    the script is embedded over their interface. *)
Record Machine (W : Type) : Type := {
  (** running a command: what it prints, its status, the world after *)
  exec : Command -> W -> Finished * W;
  (** the inline [python3 -c] that prints [len(d.get('skills',[]))] of
      [data/skill_cache.json]; [None] when it fails (no file, no JSON) *)
  count_skills : W -> option nat;
  (** the inline [python3 -c] that prints [d.get('name','Unknown')] of the
      JSON text on its stdin; [None] when it fails *)
  json_name : list string -> option string;
  (** [date '+%Y-%m-%d'] and [date '+%H:%M:%S'] *)
  date_ymd : W -> string;
  date_hms : W -> string;
  (** [[ -f path ]] and [[ -d path ]] *)
  is_file : string -> W -> bool;
  is_dir : string -> W -> bool;
  (** the environment of the script *)
  HOME : string;
  SANGENG_API_KEY : string   (* empty when unset *)
}.
Arguments exec {W} _ _ _.
Arguments count_skills {W} _ _.
Arguments json_name {W} _ _.
Arguments date_ymd {W} _ _.
Arguments date_hms {W} _ _.
Arguments is_file {W} _ _ _.
Arguments is_dir {W} _ _ _.
Arguments HOME {W} _.
Arguments SANGENG_API_KEY {W} _.

(** ** The shell monad: state, and [exit] *)

(** The state a run threads: the world, the lines appended to [$LOG_FILE],
    and the commands run so far (oldest first). *)
Record ShState (W : Type) : Type := {
  world : W;
  LOG_FILE : list string;
  trace : list Invocation
}.
Arguments world {W} _.
Arguments LOG_FILE {W} _.
Arguments trace {W} _.

Inductive Step (A : Type) : Type :=
| Next (a : A)          (* fall through to the next command *)
| Exit (code : Z).      (* [exit code]: the script ends here *)
Arguments Next {A} a.
Arguments Exit {A} code.

Definition Sh (W A : Type) : Type := ShState W -> Step A * ShState W.

Definition ret {W A} (a : A) : Sh W A := fun s => (Next a, s).

Definition bind {W A B} (m : Sh W A) (k : A -> Sh W B) : Sh W B :=
  fun s =>
    match m s with
    | (Next a, s') => k a s'
    | (Exit c, s') => (Exit c, s')
    end.

Definition exit {W A} (code : Z) : Sh W A := fun s => (Exit code, s).

Notation "x <- m ;; k" := (bind m (fun x => k))
  (at level 61, m at next level, right associativity).
Notation "m ;; k" := (bind m (fun _ => k))
  (at level 61, right associativity).

Section Script.

Context {W : Type} (M : Machine W).

Definition OUTPUT_DIR : string :=
  (HOME M ++ "/Documents/Obsidian/ai自动生成/skill-digest")%string.
Definition WECHAT_PUBLISH_DIR : string :=
  (HOME M ++ "/.claude/skills/wechat-publish")%string.
Definition PUBLISH_SCRIPT : string :=
  (WECHAT_PUBLISH_DIR ++ "/scripts/publish.py")%string.
Definition WECHAT_APPID : string := "wx5c5f1c55d02d1354".

(** A line of the [log] function: [[timestamp] message]. *)
Definition log_line (ymd hms msg : string) : string :=
  ("[" ++ ymd ++ " " ++ hms ++ "] " ++ msg)%string.

(** [log "message"]: stamp the message and append it to [$LOG_FILE]. *)
Definition log (msg : string) : Sh W unit :=
  fun s =>
    let w := world s in
    (Next tt,
     {| world := w;
        LOG_FILE := LOG_FILE s ++ [log_line (date_ymd M w) (date_hms M w) msg];
        trace := trace s |}).

(** [... >> "$LOG_FILE"] and [... | tee -a "$LOG_FILE"]. *)
Definition append_log (lines : list string) : Sh W unit :=
  fun s =>
    (Next tt,
     {| world := world s;
        LOG_FILE := LOG_FILE s ++ lines;
        trace := trace s |}).

(** Run a command and wait for it. *)
Definition run (c : Command) : Sh W Finished :=
  fun s =>
    let (f, w') := exec M c (world s) in
    (Next f,
     {| world := w';
        LOG_FILE := LOG_FILE s;
        trace := trace s ++ [ {| command := c; exit_status := status f |} ] |}).

(** [cmd 2>&1 | tee -a "$LOG_FILE"]: the output goes to the log, and, the
    script not setting [pipefail], the status of the pipeline is the status
    of [tee], which is 0; the status of [cmd] is lost. *)
Definition run_tee_log (c : Command) : Sh W Z :=
  f <- run c ;;
  append_log (output f) ;;
  ret 0%Z.

(** Reading the world without changing it. *)
Definition ask {A} (f : W -> A) : Sh W A := fun s => (Next (f (world s)), s).

(** Steps 1 and 2: fetch, count, select; gives [SKILL_NAME]. *)
Definition fetch_and_select : Sh W string :=
  log "==========================================" ;;
  log "Starting Daily Skill Digest" ;;
  log "==========================================" ;;
  (* Step 1 *)
  log "Step 1: Fetching skills from sources..." ;;
  f <- run fetch_skills_refresh ;;
  (if Z.eqb (status f) 0 then ret tt
   else log "Warning: Failed to refresh skills, using cached data") ;;
  counted <- ask (count_skills M) ;;
  let SKILL_COUNT := match counted with Some n => n | None => 0 end in
  log ("Available skills: " ++ show_nat SKILL_COUNT)%string ;;
  if Nat.eqb SKILL_COUNT 0 then
    log "Error: No skills available. Exiting." ;;
    exit 1
  else
  (* Step 2 *)
  log "Step 2: Selecting today's skill..." ;;
  sel <- run select_daily ;;
  let TEMP_JSON := output sel in
  append_log (grep_bracket TEMP_JSON) ;;
  let SELECTED := sed_json_block TEMP_JSON in
  match SELECTED with
  | [] =>
      log "Error: Failed to select skill" ;;
      append_log TEMP_JSON ;;
      exit 1
  | _ :: _ =>
      let SKILL_NAME :=
        match json_name M SELECTED with
        | Some n => n
        | None => "Unknown"%string
        end in
      if String.eqb SKILL_NAME "Unknown" || String.eqb SKILL_NAME "" then
        log "Error: Could not parse skill name" ;;
        exit 1
      else
        log ("Selected skill: " ++ SKILL_NAME)%string ;;
        ret SKILL_NAME
  end.

(** [ARTICLE_FILE] *)
Definition article_file (ymd SKILL_NAME : string) : string :=
  (OUTPUT_DIR ++ "/" ++ ymd ++ "-" ++ sanitize SKILL_NAME ++ ".md")%string.

(** Step 3 up to the end of the generator; gives [ARTICLE_FILE]. *)
Definition generate (SKILL_NAME : string) : Sh W string :=
  log "Step 3: Generating article..." ;;
  ymd <- ask (date_ymd M) ;;
  let ARTICLE_FILE := article_file ymd SKILL_NAME in
  _ <- run_tee_log (generate_article ARTICLE_FILE) ;;
  ret ARTICLE_FILE.

(** Step 5: publish to WeChat (optional). *)
Definition publish_step (SKILL_NAME ARTICLE_FILE : string) : Sh W unit :=
  log "Step 5: Publishing to WeChat..." ;;
  has_dir <- ask (is_dir M WECHAT_PUBLISH_DIR) ;;
  if has_dir then
    has_script <- ask (is_file M PUBLISH_SCRIPT) ;;
    if has_script then
      log "Found wechat-publish skill, attempting to publish..." ;;
      if String.eqb (SANGENG_API_KEY M) "" then
        log "Warning: SANGENG_API_KEY not set, skipping WeChat publish"
      else
        st <- run_tee_log
                (publish PUBLISH_SCRIPT
                   {| arg_appid := WECHAT_APPID;
                      arg_title := ("每日Skill精选：" ++ SKILL_NAME)%string;
                      arg_content_file := ARTICLE_FILE;
                      arg_author := "三更AI" |}) ;;
        if Z.eqb st 0 then ret tt
        else log "Warning: WeChat publish failed, article saved locally"
    else
      log ("Warning: wechat-publish script not found at "
           ++ PUBLISH_SCRIPT)%string
  else
    log "Note: wechat-publish skill not installed, skipping WeChat publish" ;;
    log "To enable auto-publish, install the wechat-publish skill".

(** The check that ends step 3, then steps 4 and 5 and the closing lines. *)
Definition mark_and_publish (SKILL_NAME ARTICLE_FILE : string) : Sh W unit :=
  written <- ask (is_file M ARTICLE_FILE) ;;
  if negb written then
    log "Error: Failed to generate article" ;;
    exit 1
  else
  log ("Article saved to: " ++ ARTICLE_FILE)%string ;;
  (* Step 4; under [set -e] a failing command ends the script with its
     status *)
  log "Step 4: Marking skill as published..." ;;
  m <- run select_daily_mark_published ;;
  if negb (Z.eqb (status m) 0) then exit (status m)
  else
  publish_step SKILL_NAME ARTICLE_FILE ;;
  log "==========================================" ;;
  log "Daily Skill Digest completed successfully" ;;
  log "==========================================" ;;
  log ("Article: " ++ ARTICLE_FILE)%string ;;
  log ("Skill: " ++ SKILL_NAME)%string ;;
  log "" ;;
  exit 0.

(** The whole script. *)
Definition daily_skill_digest : Sh W unit :=
  SKILL_NAME <- fetch_and_select ;;
  ARTICLE_FILE <- generate SKILL_NAME ;;
  mark_and_publish SKILL_NAME ARTICLE_FILE.

(** A run from a world: empty log, nothing run yet. *)
Definition start (w : W) : ShState W :=
  {| world := w; LOG_FILE := []; trace := [] |}.

Definition run_script (w : W) : Step unit * ShState W :=
  daily_skill_digest (start w).

(** The exit status of a finished run. *)
Definition exit_code {A} (r : Step A) : Z :=
  match r with
  | Exit c => c
  | Next _ => 0
  end.

Definition final_status (w : W) : Z := exit_code (fst (run_script w)).
Definition final_state (w : W) : ShState W := snd (run_script w).

(** A state, from its parts. *)
Definition mk (w : W) (l : list string) (t : list Invocation) : ShState W :=
  {| world := w; LOG_FILE := l; trace := t |}.

(** A computation that only appends to the log. *)
Definition grows {A} (m : Sh W A) : Prop :=
  forall s, exists l, LOG_FILE (snd (m s)) = LOG_FILE s ++ l.

(** ** The script without its log lines *)

(** [SKILL_NAME] as step 2 derives it from the output of the selector, when
    the script goes on with it: [None] when no JSON block is found, or when
    the name is [Unknown] or empty. *)
Definition usable_name (TEMP_JSON : list string) : option string :=
  match sed_json_block TEMP_JSON with
  | [] => None
  | _ :: _ =>
      let SKILL_NAME :=
        match json_name M (sed_json_block TEMP_JSON) with
        | Some n => n
        | None => "Unknown"%string
        end in
      if String.eqb SKILL_NAME "Unknown" || String.eqb SKILL_NAME ""
      then None else Some SKILL_NAME
  end.

(** Step 5 reaches the publish command: the directory and the script are
    there and the key is set. *)
Definition publish_attempted (w : W) : bool :=
  is_dir M WECHAT_PUBLISH_DIR w && is_file M PUBLISH_SCRIPT w
  && negb (String.eqb (SANGENG_API_KEY M) "").

Definition publish_command (SKILL_NAME ARTICLE_FILE : string) : Command :=
  publish PUBLISH_SCRIPT
    {| arg_appid := WECHAT_APPID;
       arg_title := ("每日Skill精选：" ++ SKILL_NAME)%string;
       arg_content_file := ARTICLE_FILE;
       arg_author := "三更AI" |}.

(** What a run comes to. *)
Record Summary : Type := {
  s_status : Z;
  s_trace : list Invocation;
  s_world : W
}.

Definition invoked (c : Command) (w : W) : Invocation :=
  {| command := c; exit_status := status (fst (exec M c w)) |}.

(** The control flow of the script, stage by stage: the status it exits
    with, the commands it has run and the world it leaves. *)
Definition outline (w : W) : Summary :=
  let i1 := invoked fetch_skills_refresh w in
  let w1 := snd (exec M fetch_skills_refresh w) in
  match count_skills M w1 with
  | None | Some 0 => {| s_status := 1; s_trace := [i1]; s_world := w1 |}
  | Some (S _) =>
      let i2 := invoked select_daily w1 in
      let w2 := snd (exec M select_daily w1) in
      match usable_name (output (fst (exec M select_daily w1))) with
      | None => {| s_status := 1; s_trace := [i1; i2]; s_world := w2 |}
      | Some SKILL_NAME =>
          let ARTICLE_FILE := article_file (date_ymd M w2) SKILL_NAME in
          let i3 := invoked (generate_article ARTICLE_FILE) w2 in
          let w3 := snd (exec M (generate_article ARTICLE_FILE) w2) in
          if negb (is_file M ARTICLE_FILE w3) then
            {| s_status := 1; s_trace := [i1; i2; i3]; s_world := w3 |}
          else
            let i4 := invoked select_daily_mark_published w3 in
            let w4 := snd (exec M select_daily_mark_published w3) in
            if negb (Z.eqb (exit_status i4) 0) then
              {| s_status := exit_status i4;
                 s_trace := [i1; i2; i3; i4]; s_world := w4 |}
            else if publish_attempted w4 then
              let c5 := publish_command SKILL_NAME ARTICLE_FILE in
              {| s_status := 0;
                 s_trace := [i1; i2; i3; i4; invoked c5 w4];
                 s_world := snd (exec M c5 w4) |}
            else
              {| s_status := 0; s_trace := [i1; i2; i3; i4]; s_world := w4 |}
      end
  end.

(** [SKILL_NAME] when the run reaches step 3, and the world step 3 starts
    in. *)
Definition selected_name (w : W) : option string :=
  let w1 := snd (exec M fetch_skills_refresh w) in
  match count_skills M w1 with
  | None | Some 0 => None
  | Some (S _) => usable_name (output (fst (exec M select_daily w1)))
  end.

Definition world_at_generation (w : W) : W :=
  snd (exec M select_daily (snd (exec M fetch_skills_refresh w))).

(** Steps 3 to 5 of the outline, from the world [w2] the selector left and
    the commands [t] run before. *)
Definition after_selection (SKILL_NAME : string) (t : list Invocation)
  (w2 : W) : Summary :=
  let ARTICLE_FILE := article_file (date_ymd M w2) SKILL_NAME in
  let i3 := invoked (generate_article ARTICLE_FILE) w2 in
  let w3 := snd (exec M (generate_article ARTICLE_FILE) w2) in
  if negb (is_file M ARTICLE_FILE w3) then
    {| s_status := 1; s_trace := t ++ [i3]; s_world := w3 |}
  else
    let i4 := invoked select_daily_mark_published w3 in
    let w4 := snd (exec M select_daily_mark_published w3) in
    if negb (Z.eqb (exit_status i4) 0) then
      {| s_status := exit_status i4; s_trace := t ++ [i3; i4]; s_world := w4 |}
    else if publish_attempted w4 then
      let c5 := publish_command SKILL_NAME ARTICLE_FILE in
      {| s_status := 0;
         s_trace := t ++ [i3; i4; invoked c5 w4];
         s_world := snd (exec M c5 w4) |}
    else
      {| s_status := 0; s_trace := t ++ [i3; i4]; s_world := w4 |}.

(** The [log] function wrote this message. *)
Definition logged (msg : string) (s : ShState W) : Prop :=
  exists ymd hms, In (log_line ymd hms msg) (LOG_FILE s).

End Script.

Arguments s_status {W} _.
Arguments s_trace {W} _.
Arguments s_world {W} _.

(** ** Reading a trace *)

Definition is_generate (i : Invocation) : bool :=
  match command i with generate_article _ => true | _ => false end.
Definition is_mark_published (i : Invocation) : bool :=
  match command i with select_daily_mark_published => true | _ => false end.
Definition is_publish (i : Invocation) : bool :=
  match command i with publish _ _ => true | _ => false end.
Definition is_select (i : Invocation) : bool :=
  match command i with select_daily => true | _ => false end.

Definition ran (p : Invocation -> bool) (t : list Invocation) : bool :=
  existsb p t.

(** The commands of a complete run, in the order the script has them. *)
Definition full_run (file script : string) (a : PublishArgs) : list Command :=
  [ fetch_skills_refresh; select_daily; generate_article file;
    select_daily_mark_published; publish script a ].

(** The mark-published command ran and its process succeeded. *)
Definition mark_succeeded (t : list Invocation) : bool :=
  existsb (fun i => is_mark_published i && Z.eqb (exit_status i) 0) t.

(** The generator ran and its process failed. *)
Definition generator_failed (t : list Invocation) : bool :=
  existsb (fun i => is_generate i && negb (Z.eqb (exit_status i) 0)) t.

(** The publish command ran and its process failed. *)
Definition publish_failed (t : list Invocation) : bool :=
  existsb (fun i => is_publish i && negb (Z.eqb (exit_status i) 0)) t.

(** The output paths the generator was asked to write. *)
Definition generated_paths (t : list Invocation) : list string :=
  flat_map (fun i => match command i with
                     | generate_article p => [p]
                     | _ => []
                     end) t.

End Driver.

(* ================================================================== *)
(** * A world to run the driver in                                     *)
(* ================================================================== *)

Module Sim.
Import Ledger Selector Driver.
Local Open Scope list_scope.

(** What persists from one run to the next. *)
Record Store : Type := {
  skill_cache : option Catalog;              (* data/skill_cache.json *)
  published : PublicationLedger;             (* data/published_skills.json *)
  selection_log : SelectionLog;              (* the per-date selection *)
  files : list string                        (* the article files written *)
}.

(** The conditions of one run: the clock and how the collaborators
    behave. *)
Record Conditions : Type := {
  today : Date;
  clock : string;
  upstream : option Catalog;     (* the aggregator's answer, or its error *)
  generator_up : bool;           (* the text-generation service answers *)
  ledger_writable : bool;        (* the ledger file can be written *)
  wechat_installed : bool;       (* the wechat-publish directory exists *)
  publish_script_present : bool; (* and holds scripts/publish.py *)
  api_key : string;              (* SANGENG_API_KEY, empty when unset *)
  channel_up : bool              (* the publish channel accepts the post *)
}.

Record SimWorld : Type := {
  store : Store;
  cond : Conditions
}.

Definition with_store (w : SimWorld) (st : Store) : SimWorld :=
  {| store := st; cond := cond w |}.

Definition sim_home : string := "/home/user".

(** The double quote character. *)
Definition dq : string := String (ascii_of_nat 34) EmptyString.

Definition json_field (k v : string) : string :=
  ("  " ++ dq ++ k ++ dq ++ ": " ++ dq ++ v ++ dq)%string.

(** Modelled from the spec: the JSON object the missing [select_daily.py]
    prints for the selected item, one property per line. *)
Definition render_item (i : CandidateItem) : list string :=
  [ "{"%string;
    (json_field "identity" (identity i) ++ ",")%string;
    (json_field "category" (category i) ++ ",")%string;
    json_field "name" (name i);
    "}"%string ].

Fixpoint strip_prefix (p s : string) : option string :=
  match p, s with
  | EmptyString, _ => Some s
  | String a p', String b s' =>
      if Ascii.eqb a b then strip_prefix p' s' else None
  | String _ _, EmptyString => None
  end.

Fixpoint drop_last (s : string) : string :=
  match s with
  | EmptyString => EmptyString
  | String _ EmptyString => EmptyString
  | String c rest => String c (drop_last rest)
  end.

(** Reads back the [name] property of what [render_item] prints; stands for
    [json.load(sys.stdin).get('name','Unknown')]. *)
Fixpoint read_name (lines : list string) : option string :=
  match lines with
  | [] => Some "Unknown"%string
  | l :: rest =>
      match strip_prefix ("  " ++ dq ++ "name" ++ dq ++ ": " ++ dq)%string l with
      | Some v => Some (drop_last v)
      | None => read_name rest
      end
  end.

(** Modelled from the spec: the selector as [select_daily.py] runs it, on
    the date of the run, the cached catalog, the ledger and the selection
    log of the store. *)
Definition select_for_run (w : SimWorld) : SelectionResult :=
  let st := store w in
  selectForDate by_category (selection_log st) (today (cond w))
    (match skill_cache st with Some c => c | None => [] end)
    (published st).

(** Modelled from the spec: [fetch_skills.py --refresh], the refresh of the
    catalog cache.  A non-empty answer replaces the cache wholesale; an
    error or an empty answer fails and leaves the cache as it was. *)
Definition sim_fetch (w : SimWorld) : Finished * SimWorld :=
  match upstream (cond w) with
  | Some (i :: rest) =>
      ({| output := []; status := 0 |},
       with_store w {| skill_cache := Some (i :: rest);
                       published := published (store w);
                       selection_log := selection_log (store w);
                       files := files (store w) |})
  | _ => ({| output := ["FetchError"%string]; status := 1 |}, w)
  end.

(** Modelled from the spec: [select_daily.py].  Prints a progress line and
    the selected item as JSON, and logs the selection for the date; prints
    no JSON object when no item is eligible. *)
Definition sim_select (w : SimWorld) : Finished * SimWorld :=
  match select_for_run w with
  | Selected i =>
      ({| output := "[select] selected"%string :: render_item i; status := 0 |},
       with_store w {| skill_cache := skill_cache (store w);
                       published := published (store w);
                       selection_log :=
                         (today (cond w), i) :: selection_log (store w);
                       files := files (store w) |})
  | NoEligibleItem =>
      ({| output := ["[select] no eligible item"%string]; status := 0 |}, w)
  end.

(** Modelled from the spec: [generate_article.py --output F].  Writes the
    article file when the generation service answers. *)
Definition sim_generate (path : string) (w : SimWorld) : Finished * SimWorld :=
  if generator_up (cond w) then
    ({| output := ["article written"%string]; status := 0 |},
     with_store w {| skill_cache := skill_cache (store w);
                     published := published (store w);
                     selection_log := selection_log (store w);
                     files := path :: files (store w) |})
  else ({| output := ["GenerationError"%string]; status := 1 |}, w).

(** Modelled from the spec: [select_daily.py --mark-published].  Converts
    the selection logged for the date into a ledger record through
    [markPublished]; fails when the ledger cannot be written or nothing was
    selected. *)
Definition sim_mark (w : SimWorld) : Finished * SimWorld :=
  match lookup_date (today (cond w)) (selection_log (store w)) with
  | Some i =>
      if ledger_writable (cond w) then
        ({| output := []; status := 0 |},
         with_store w {| skill_cache := skill_cache (store w);
                         published :=
                           markPublished (identity i) (category i)
                             (today (cond w)) (published (store w));
                         selection_log := selection_log (store w);
                         files := files (store w) |})
      else ({| output := ["PersistenceError"%string]; status := 1 |}, w)
  | None => ({| output := ["nothing selected"%string]; status := 1 |}, w)
  end.

(** The publisher: an external collaborator that succeeds or fails. *)
Definition sim_publish (w : SimWorld) : Finished * SimWorld :=
  if channel_up (cond w)
  then ({| output := ["published"%string]; status := 0 |}, w)
  else ({| output := ["PublishError"%string]; status := 1 |}, w).

Definition sim_exec (c : Command) (w : SimWorld) : Finished * SimWorld :=
  match c with
  | fetch_skills_refresh => sim_fetch w
  | select_daily => sim_select w
  | generate_article path => sim_generate path w
  | select_daily_mark_published => sim_mark w
  | publish _ _ => sim_publish w
  end.

Definition sim_wechat_dir : string :=
  (sim_home ++ "/.claude/skills/wechat-publish")%string.

Definition machine (key : string) : Machine SimWorld :=
  {| exec := sim_exec;
     count_skills := fun w => option_map (@List.length CandidateItem) (skill_cache (store w));
     json_name := read_name;
     date_ymd := fun w => today (cond w);
     date_hms := fun w => clock (cond w);
     is_file := fun p w =>
       existsb (String.eqb p) (files (store w))
       || (String.eqb p (sim_wechat_dir ++ "/scripts/publish.py")%string
           && publish_script_present (cond w));
     is_dir := fun p w =>
       String.eqb p sim_wechat_dir && wechat_installed (cond w);
     HOME := sim_home;
     SANGENG_API_KEY := key |}.

(** One run of the driver under conditions [c] from the store [st]. *)
Definition run (c : Conditions) (st : Store)
  : Step unit * ShState SimWorld :=
  run_script (machine (api_key c)) {| store := st; cond := c |}.

Definition status_of (c : Conditions) (st : Store) : Z :=
  exit_code (fst (run c st)).
Definition trace_of (c : Conditions) (st : Store) : list Invocation :=
  trace (snd (run c st)).
Definition store_after (c : Conditions) (st : Store) : Store :=
  store (world (snd (run c st))).

(** The script goes on with the name of the item: it is neither empty nor
    the word [Unknown]. *)
Definition name_usable (i : CandidateItem) : bool :=
  negb (String.eqb (name i) "Unknown" || String.eqb (name i) "").

(** What the selector answers in a run that reaches step 2: it runs on the
    world the refresh of step 1 leaves. *)
Definition selection_of (c : Conditions) (st : Store) : SelectionResult :=
  select_for_run (snd (sim_fetch {| store := st; cond := c |})).

(** The run asked the generator for an article and the file is not there
    when the run ends. *)
Definition article_missing (c : Conditions) (st : Store) : bool :=
  match generated_paths (trace_of c st) with
  | [p] => negb (is_file (machine (api_key c)) p (world (snd (run c st))))
  | _ => false
  end.

(** ** The scenario of the spec *)

Definition community : QualitySignals :=
  {| official := false; has_manifest := true |}.

Definition item_A : CandidateItem :=
  {| identity := "https://github.com/x/a"; name := "Skill A";
     category := "tools"; sourceUrl := "https://github.com/x/a";
     lastUpdatedAt := Some 20240110%Z; qualitySignals := community |}.
Definition item_B : CandidateItem :=
  {| identity := "https://github.com/x/b"; name := "Skill B";
     category := "tools"; sourceUrl := "https://github.com/x/b";
     lastUpdatedAt := Some 20240112%Z; qualitySignals := community |}.
Definition item_C : CandidateItem :=
  {| identity := "https://github.com/x/c"; name := "Guide C";
     category := "docs"; sourceUrl := "https://github.com/x/c";
     lastUpdatedAt := None; qualitySignals := community |}.

Definition catalog_ABC : Catalog := [item_A; item_B; item_C].



Definition fresh_store : Store :=
  {| skill_cache := Some catalog_ABC; published := [];
     selection_log := []; files := [] |}.


(** A day on which everything works. *)
Definition good_day : Conditions :=
  {| today := "2024-01-15"; clock := "12:00:00";
     upstream := Some catalog_ABC;
     generator_up := true; ledger_writable := true;
     wechat_installed := true; publish_script_present := true;
     api_key := "key"; channel_up := true |}.

(** A and B are published already; C is documentation. *)
Definition spent_store : Store :=
  {| skill_cache := Some catalog_ABC;
     published :=
       [ {| rec_identity := "https://github.com/x/b"; rec_category := "tools";
            publishedAt := "2024-01-13" |};
         {| rec_identity := "https://github.com/x/a"; rec_category := "tools";
            publishedAt := "2024-01-14" |} ];
     selection_log := []; files := [] |}.

(** Nothing was ever cached. *)
Definition empty_store : Store :=
  {| skill_cache := None; published := []; selection_log := []; files := [] |}.

Definition set_channel (b : bool) (c : Conditions) : Conditions :=
  {| today := today c; clock := clock c; upstream := upstream c;
     generator_up := generator_up c; ledger_writable := ledger_writable c;
     wechat_installed := wechat_installed c;
     publish_script_present := publish_script_present c;
     api_key := api_key c; channel_up := b |}.

Definition set_generator (b : bool) (c : Conditions) : Conditions :=
  {| today := today c; clock := clock c; upstream := upstream c;
     generator_up := b; ledger_writable := ledger_writable c;
     wechat_installed := wechat_installed c;
     publish_script_present := publish_script_present c;
     api_key := api_key c; channel_up := channel_up c |}.

Definition set_ledger_writable (b : bool) (c : Conditions) : Conditions :=
  {| today := today c; clock := clock c; upstream := upstream c;
     generator_up := generator_up c; ledger_writable := b;
     wechat_installed := wechat_installed c;
     publish_script_present := publish_script_present c;
     api_key := api_key c; channel_up := channel_up c |}.

Definition set_upstream (u : option Catalog) (c : Conditions) : Conditions :=
  {| today := today c; clock := clock c; upstream := u;
     generator_up := generator_up c; ledger_writable := ledger_writable c;
     wechat_installed := wechat_installed c;
     publish_script_present := publish_script_present c;
     api_key := api_key c; channel_up := channel_up c |}.

(** The store a run of the good day leaves when the ledger cannot be
    written: the article of B is there, B is not marked. *)
Definition half_done_store : Store :=
  store_after (set_ledger_writable false good_day) fresh_store.

End Sim.


(* ================================================================== *)
(** * Properties of the worker                                         *)
(* ================================================================== *)

Module WorkerFacts.
Import Worker.
Local Open Scope list_scope.

(** [triggerWorkflow] catches whatever its body throws. *)
Lemma triggerWorkflow_returns (env : Env) (w : World) :
  exists props, completion (triggerWorkflow env) w = Return (JObj props).
Proof.
  unfold completion, triggerWorkflow.
  destruct (truthy (GITHUB_TOKEN env)); simpl.
  2: { eexists; reflexivity. }
  unfold try_catch, bind, global_fetch.
  destruct (network w _) as [e | r]; simpl.
  - eexists; reflexivity.
  - destruct (status r =? 204)%Z; simpl.
    + eexists; reflexivity.
    + unfold response_text. destruct (text r); simpl; eexists; reflexivity.
Qed.

(** The effects of [triggerWorkflow]: nothing without a token, one call of
    the dispatch end point with one. *)
Lemma triggerWorkflow_effects (env : Env) (w : World) :
  effects (triggerWorkflow env) w =
  if truthy (GITHUB_TOKEN env)
  then [ NetCall (dispatch_request (GITHUB_TOKEN env))
           (network w (dispatch_request (GITHUB_TOKEN env))) ]
  else [].
Proof.
  unfold effects, triggerWorkflow.
  destruct (truthy (GITHUB_TOKEN env)); simpl; [| reflexivity].
  unfold try_catch, bind, global_fetch.
  destruct (network w _) as [e | r]; simpl; [reflexivity |].
  destruct (status r =? 204)%Z; simpl; [reflexivity |].
  unfold response_text. destruct (text r); reflexivity.
Qed.

(** ** The three outcomes of a dispatch, and the missing token *)

Example trigger_accepted :
  triggerWorkflow env_with_token world_accepting =
  (Return (JObj [ ("success", JBool true);
                  ("message", JStr "Workflow triggered successfully");
                  ("timestamp", JStr "2026-01-27T04:00:00.000Z") ]),
   [ NetCall (dispatch_request (Some "ghp_token"))
       (Resolved {| status := 204; text := inl "" |}) ]).
Proof. reflexivity. Qed.

Example trigger_refused :
  completion (triggerWorkflow env_with_token) world_refusing =
  Return (JObj [ ("success", JBool false);
                 ("status", JNum 401);
                 ("error", JStr "Bad credentials") ]).
Proof. reflexivity. Qed.

Example trigger_offline :
  completion (triggerWorkflow env_with_token) world_offline =
  Return (JObj [ ("success", JBool false);
                 ("error", JStr "Network connection lost") ]).
Proof. reflexivity. Qed.

Example trigger_without_token :
  triggerWorkflow env_without_token world_accepting =
  (Return (JObj [ ("success", JBool false);
                  ("error", JStr "GITHUB_TOKEN not configured") ]),
   []).
Proof. reflexivity. Qed.

Example other_path_serves_info :
  fetch {| url_pathname := "/" |} env_with_token world_accepting =
  (Return {| resp_body := JSON_stringify info_page 2;
             resp_headers := [ ("Content-Type", "application/json") ] |},
   []).
Proof. reflexivity. Qed.

(** C10: for every environment and every behaviour of the network,
    [triggerWorkflow] returns (it never throws) an object whose [success]
    property is a boolean; that boolean is [true] exactly when the GitHub
    API answered a call with HTTP status 204; and with [GITHUB_TOKEN]
    absent (undefined or empty) it is [false] and no network call is
    made. *)
Theorem triggerWorkflow_total (env : Env) (w : World) :
  exists props b,
    completion (triggerWorkflow env) w = Return (JObj props)
    /\ get_prop "success" props = JBool b
    /\ b = existsb answered_204 (effects (triggerWorkflow env) w)
    /\ (truthy (GITHUB_TOKEN env) = true
        \/ (b = false /\ effects (triggerWorkflow env) w = [])).
Proof.
  unfold completion, effects, triggerWorkflow.
  destruct (truthy (GITHUB_TOKEN env)) eqn:Htok; simpl.
  2: { do 2 eexists. repeat split; try reflexivity. right. split; reflexivity. }
  unfold try_catch, bind, global_fetch.
  destruct (network w _) as [e | r] eqn:Hnet; simpl.
  - do 2 eexists. repeat split; try reflexivity. now left.
  - destruct (status r =? 204)%Z eqn:Hst; simpl.
    + do 2 eexists. repeat split; try reflexivity.
      * simpl. now rewrite Hst.
      * now left.
    + unfold response_text. destruct (text r); simpl.
      * do 2 eexists. repeat split; try reflexivity.
        -- simpl. now rewrite Hst.
        -- now left.
      * do 2 eexists. repeat split; try reflexivity.
        -- simpl. now rewrite Hst.
        -- now left.
Qed.

(** C9: for every environment and world, an HTTP request whose path is
    [/trigger] and the scheduled handler make the same network calls, those
    of [triggerWorkflow env]; both hand on the one result it returned (the
    HTTP body and the console line are its JSON text); and every call goes
    by POST to the dispatch end point of the repository
    lairulan/skill-digest with event type daily-skill-digest. *)
Theorem triggers_share_entry_point (env : Env) (w : World) (request : Request) :
  url_pathname request = "/trigger" ->
  net_calls (fetch request env) w = net_calls (scheduled env) w
  /\ net_calls (scheduled env) w = effects (triggerWorkflow env) w
  /\ Forall is_dispatch (net_calls (scheduled env) w)
  /\ exists result,
       completion (triggerWorkflow env) w = Return result
       /\ completion (fetch request env) w =
            Return {| resp_body := JSON_stringify result 2;
                      resp_headers := [ ("Content-Type", "application/json") ] |}
       /\ effects (scheduled env) w =
            effects (triggerWorkflow env) w
            ++ [ ConsoleLog "Skill Digest trigger result: "
                   (JSON_stringify result 0) ].
Proof.
  intros Hpath.
  destruct (triggerWorkflow_returns env w) as [props Hret].
  pose proof (triggerWorkflow_effects env w) as Heff.
  unfold completion in Hret. unfold effects in Heff.
  assert (Hsched : effects (scheduled env) w =
                   effects (triggerWorkflow env) w
                   ++ [ ConsoleLog "Skill Digest trigger result: "
                          (JSON_stringify (JObj props) 0) ]).
  { unfold effects, scheduled, bind, console_log.
    destruct (triggerWorkflow env w) as [r t]. simpl in Hret. subst r.
    reflexivity. }
  assert (Hfetch : fetch request env w =
                   (Return {| resp_body := JSON_stringify (JObj props) 2;
                              resp_headers :=
                                [ ("Content-Type", "application/json") ] |},
                    effects (triggerWorkflow env) w)).
  { unfold fetch, effects. rewrite Hpath. simpl. unfold bind, ret.
    destruct (triggerWorkflow env w) as [r t]. simpl in Hret. subst r.
    simpl. now rewrite app_nil_r. }
  assert (Hnet : net_calls (scheduled env) w = effects (triggerWorkflow env) w).
  { unfold net_calls. rewrite Hsched, filter_app. simpl. rewrite app_nil_r.
    unfold effects. rewrite Heff.
    destruct (truthy (GITHUB_TOKEN env)); reflexivity. }
  repeat split.
  - unfold net_calls at 1. unfold effects at 1. rewrite Hfetch. simpl.
    rewrite Hnet. unfold effects. rewrite Heff.
    destruct (truthy (GITHUB_TOKEN env)); reflexivity.
  - exact Hnet.
  - rewrite Hnet. unfold effects. rewrite Heff.
    destruct (truthy (GITHUB_TOKEN env)); constructor.
    + simpl. repeat split; reflexivity.
    + constructor.
  - exists (JObj props). repeat split.
    + exact Hret.
    + unfold completion. now rewrite Hfetch.
    + exact Hsched.
Qed.

(** The manual trigger and the cron trigger on a day GitHub accepts the
    dispatch. *)
Lemma triggers_share_entry_point_witness :
  url_pathname trigger_request = "/trigger"
  /\ net_calls (fetch trigger_request env_with_token) world_accepting
     = net_calls (scheduled env_with_token) world_accepting.
Proof.
  split; [reflexivity |].
  apply (triggers_share_entry_point env_with_token world_accepting
           trigger_request).
  reflexivity.
Defined.

End WorkerFacts.

(* ================================================================== *)
(** * Properties of the ledger                                         *)
(* ================================================================== *)

Module LedgerFacts.
Import Ledger.
Local Open Scope list_scope.

Lemma contains_In (id : string) (L : PublicationLedger) :
  contains id L = true <-> In id (identities L).
Proof.
  unfold contains, identities. rewrite existsb_exists, in_map_iff.
  split; intros [r [H1 H2]]; exists r.
  - apply String.eqb_eq in H2. now split.
  - split; [assumption |]. now apply String.eqb_eq.
Qed.

Lemma markPublished_present (id cat : string) (d : Date) (L : PublicationLedger) :
  contains id L = true -> markPublished id cat d L = L.
Proof. intros H. unfold markPublished. now rewrite H. Qed.

Lemma markPublished_contains (id cat : string) (d : Date) (L : PublicationLedger) :
  contains id (markPublished id cat d L) = true.
Proof.
  unfold markPublished. destruct (contains id L) eqn:H; [assumption |].
  unfold contains. rewrite existsb_app. simpl.
  rewrite String.eqb_refl. now rewrite orb_true_r.
Qed.

Lemma markPublished_NoDup (id cat : string) (d : Date) (L : PublicationLedger) :
  NoDup (identities L) -> NoDup (identities (markPublished id cat d L)).
Proof.
  intros Hnd. unfold markPublished.
  destruct (contains id L) eqn:H; [assumption |].
  unfold identities. rewrite map_app. simpl.
  apply NoDup_rev in Hnd. rewrite <- (rev_involutive (map _ L ++ [id])).
  apply NoDup_rev. rewrite rev_app_distr. simpl. constructor; [| assumption].
  rewrite <- in_rev. intros Hin. apply contains_In in Hin. congruence.
Qed.

Lemma history_NoDup (calls : list MarkCall) (L : PublicationLedger) :
  NoDup (identities L) -> NoDup (identities (fold_left apply_call calls L)).
Proof.
  revert L. induction calls as [| c calls IH]; intros L H; simpl.
  - assumption.
  - apply IH. unfold apply_call. now apply markPublished_NoDup.
Qed.

(** C7: [markPublished] is idempotent.  On every ledger that holds at most
    one record per identity, a call for an identity that already has a
    record returns the ledger unchanged; so a second call after a first one
    changes nothing, whatever category and date it carries; and after one
    call or any history of calls the ledger still holds at most one record
    per identity. *)
Theorem markPublished_idempotent (L : PublicationLedger)
  (id cat cat' : string) (d d' : Date) (calls : list MarkCall) :
  NoDup (identities L) ->
  (contains id L = true -> markPublished id cat d L = L)
  /\ markPublished id cat' d' (markPublished id cat d L) = markPublished id cat d L
  /\ NoDup (identities (markPublished id cat d L))
  /\ NoDup (identities (fold_left apply_call calls L)).
Proof.
  intros Hnd. repeat split.
  - apply markPublished_present.
  - apply markPublished_present, markPublished_contains.
  - now apply markPublished_NoDup.
  - now apply history_NoDup.
Qed.

(** Marking the same skill twice, the second time on a later day. *)
Lemma markPublished_idempotent_witness :
  NoDup (identities [])
  /\ markPublished "https://github.com/x/b" "tools" "2024-01-16"
       (markPublished "https://github.com/x/b" "tools" "2024-01-15" [])
     = markPublished "https://github.com/x/b" "tools" "2024-01-15" [].
Proof.
  split; [constructor |].
  apply (markPublished_idempotent [] "https://github.com/x/b" "tools" "tools"
           "2024-01-15" "2024-01-16" []).
  constructor.
Defined.

End LedgerFacts.

(* ================================================================== *)
(** * Properties of the selector                                       *)
(* ================================================================== *)

Module SelectorFacts.
Import Ledger Selector.
Local Open Scope list_scope.

Lemma ascii_compare_trans (a b c : ascii) :
  Ascii.compare a b = Lt -> Ascii.compare b c = Lt -> Ascii.compare a c = Lt.
Proof.
  unfold Ascii.compare. rewrite !N.compare_lt_iff. apply N.lt_trans.
Qed.

Lemma ascii_compare_refl (a : ascii) : Ascii.compare a a = Eq.
Proof. unfold Ascii.compare. apply N.compare_refl. Qed.

Lemma string_compare_trans (x y z : string) :
  String.compare x y = Lt -> String.compare y z = Lt -> String.compare x z = Lt.
Proof.
  revert y z. induction x as [| a x IH]; intros [| b y] [| c z]; simpl;
    try discriminate; try reflexivity.
  destruct (Ascii.compare a b) eqn:Hab; try discriminate;
    destruct (Ascii.compare b c) eqn:Hbc; try discriminate; intros H1 H2.
  - apply Ascii.compare_eq_iff in Hab, Hbc. subst.
    rewrite ascii_compare_refl. eauto.
  - apply Ascii.compare_eq_iff in Hab. subst. now rewrite Hbc.
  - apply Ascii.compare_eq_iff in Hbc. subst. now rewrite Hab.
  - now rewrite (ascii_compare_trans _ _ _ Hab Hbc).
Qed.

Lemma flag_rank_order : rank_order flag_cmp.
Proof.
  split.
  - intros [] []; simpl; congruence.
  - intros [] []; reflexivity.
  - intros [] [] []; simpl; congruence.
Qed.

Lemma freshness_rank_order : rank_order freshness_cmp.
Proof.
  split.
  - intros [x |] [y |]; simpl; try congruence.
    intros H. apply Z.compare_eq in H. now subst.
  - intros [x |] [y |]; simpl; try reflexivity. apply Z.compare_antisym.
  - intros [x |] [y |] [z |]; simpl; try congruence.
    rewrite !Z.compare_lt_iff. lia.
Qed.

Lemma identity_rank_order : rank_order String.compare.
Proof.
  split.
  - apply String.compare_eq_iff.
  - intros x y. apply String.compare_antisym.
  - apply string_compare_trans.
Qed.

(** Breaking the ties of one strict total order by another gives a strict
    total order on pairs. *)
Lemma pair_rank_order {A B} (ca : A -> A -> comparison)
  (cb : B -> B -> comparison) :
  rank_order ca -> rank_order cb -> rank_order (pair_cmp ca cb).
Proof.
  intros [ea aa ta] [eb ab tb]. split.
  - intros [a1 b1] [a2 b2]. unfold pair_cmp, then_cmp. simpl.
    destruct (ca a1 a2) eqn:Ha; try discriminate.
    intros Hb. apply ea in Ha. apply eb in Hb. now subst.
  - intros [a1 b1] [a2 b2]. unfold pair_cmp, then_cmp. simpl.
    rewrite (aa a1 a2), (ab b1 b2).
    destruct (ca a1 a2); reflexivity.
  - intros [a1 b1] [a2 b2] [a3 b3]. unfold pair_cmp, then_cmp. simpl.
    destruct (ca a1 a2) eqn:H12; try discriminate;
      destruct (ca a2 a3) eqn:H23; try discriminate; intros Hx Hy.
    + apply ea in H12. apply ea in H23. subst.
      assert (Hr : ca a3 a3 = Eq).
      { pose proof (aa a3 a3) as E.
        destruct (ca a3 a3); simpl in E; congruence. }
      rewrite Hr. eapply tb; eassumption.
    + apply ea in H12. subst. now rewrite H23.
    + apply ea in H23. subst. now rewrite H12.
    + now rewrite (ta _ _ _ H12 H23).
Qed.

(** The ranking of the selector is a strict total order on keys. *)
Lemma key_rank_order : rank_order key_cmp.
Proof.
  unfold key_cmp. repeat apply pair_rank_order.
  - apply flag_rank_order.
  - apply freshness_rank_order.
  - apply flag_rank_order.
  - apply identity_rank_order.
Qed.

Lemma key_cmp_eq (k1 k2 : RankKey) : key_cmp k1 k2 = Eq -> k1 = k2.
Proof. apply key_rank_order. Qed.

Lemma key_cmp_antisym (k1 k2 : RankKey) :
  key_cmp k2 k1 = CompOpp (key_cmp k1 k2).
Proof. apply key_rank_order. Qed.

Lemma key_cmp_trans (k1 k2 k3 : RankKey) :
  key_cmp k1 k2 = Lt -> key_cmp k2 k3 = Lt -> key_cmp k1 k3 = Lt.
Proof. apply key_rank_order. Qed.

Lemma outranks_not_below (recent : option string) (a b c : CandidateItem) :
  outranks recent a b = true -> not_below recent b c -> not_below recent a c.
Proof.
  unfold outranks, not_below. intros Hab Hbc.
  destruct (key_cmp (rank_key recent a) (rank_key recent b)) eqn:E1;
    try discriminate.
  destruct (key_cmp (rank_key recent b) (rank_key recent c)) eqn:E2.
  - apply key_cmp_eq in E2. rewrite <- E2, E1. discriminate.
  - rewrite (key_cmp_trans _ _ _ E1 E2). discriminate.
  - congruence.
Qed.

Lemma best_In (recent : option string) (l : list CandidateItem) (m : CandidateItem) :
  best recent l = Some m -> In m l.
Proof.
  revert m. induction l as [| x l IH]; intros m; simpl; [discriminate |].
  destruct (best recent l) as [y |].
  - destruct (outranks recent x y); intros [= <-]; auto.
  - intros [= <-]. now left.
Qed.

Lemma best_None (recent : option string) (l : list CandidateItem) :
  best recent l = None -> l = [].
Proof.
  destruct l as [| x l]; simpl; [reflexivity |].
  destruct (best recent l) as [y |]; [destruct (outranks recent x y) |];
    discriminate.
Qed.

Lemma best_top (recent : option string) (l : list CandidateItem) (m : CandidateItem) :
  best recent l = Some m -> forall x, In x l -> not_below recent m x.
Proof.
  revert m. induction l as [| a l IH]; intros m; simpl; [discriminate |].
  destruct (best recent l) as [y |] eqn:Hb.
  - destruct (outranks recent a y) eqn:Ho; intros [= <-] x [<- | Hin].
    + unfold not_below.
      pose proof (key_cmp_antisym (rank_key recent a) (rank_key recent a)) as E.
      destruct (key_cmp (rank_key recent a) (rank_key recent a));
        simpl in E; congruence.
    + eapply outranks_not_below; [eassumption |]. now apply IH.
    + unfold not_below, outranks in *.
      rewrite (key_cmp_antisym (rank_key recent a) (rank_key recent y)).
      destruct (key_cmp (rank_key recent a) (rank_key recent y));
        simpl; congruence.
    + now apply IH.
  - apply best_None in Hb. subst l. intros [= <-] x [<- | []].
    unfold not_below.
    pose proof (key_cmp_antisym (rank_key recent a) (rank_key recent a)) as E.
    destruct (key_cmp (rank_key recent a) (rank_key recent a));
      simpl in E; congruence.
Qed.

Lemma same_identity_same_item (l : list CandidateItem) (a b : CandidateItem) :
  NoDup (map identity l) -> In a l -> In b l -> identity a = identity b -> a = b.
Proof.
  induction l as [| x l IH]; simpl; [contradiction |].
  intros Hnd Ha Hb E. inversion Hnd as [| ? ? Hx Hl]; subst.
  destruct Ha as [<- | Ha], Hb as [<- | Hb]; auto.
  - exfalso. apply Hx. rewrite E. now apply in_map.
  - exfalso. apply Hx. rewrite <- E. now apply in_map.
Qed.

Lemma best_unique (recent : option string) (l1 l2 : list CandidateItem) :
  NoDup (map identity l1) ->
  (forall x, In x l1 <-> In x l2) ->
  best recent l1 = best recent l2.
Proof.
  intros Hnd Hsame.
  destruct (best recent l1) as [m1 |] eqn:H1, (best recent l2) as [m2 |] eqn:H2.
  - f_equal.
    pose proof (best_In _ _ _ H1) as I1. pose proof (best_In _ _ _ H2) as I2.
    apply (same_identity_same_item l1); auto; [now apply Hsame |].
    pose proof (best_top _ _ _ H1 m2 (proj2 (Hsame m2) I2)) as T1.
    pose proof (best_top _ _ _ H2 m1 (proj1 (Hsame m1) I1)) as T2.
    unfold not_below in *.
    rewrite (key_cmp_antisym (rank_key recent m1) (rank_key recent m2)) in T2.
    destruct (key_cmp (rank_key recent m1) (rank_key recent m2)) eqn:E;
      simpl in T2; try congruence.
    apply key_cmp_eq in E. unfold rank_key in E. congruence.
  - apply best_None in H2. subst l2.
    apply best_In in H1. now apply Hsame in H1.
  - apply best_None in H1. subst l1.
    apply best_In in H2. now apply Hsame in H2.
  - reflexivity.
Qed.

(** Filtering a catalog keeps its identities distinct. *)
Lemma filter_unique_identities (keep : CandidateItem -> bool) (c : Catalog) :
  unique_identities c -> unique_identities (filter keep c).
Proof.
  unfold unique_identities.
  induction c as [| i c IH]; intros Hc; cbn [filter map] in *.
  - exact Hc.
  - apply NoDup_cons_iff in Hc as [Hfresh Hrest].
    destruct (keep i); cbn [map]; [| now apply IH].
    apply NoDup_cons; [| now apply IH].
    contradict Hfresh.
    apply in_map_iff in Hfresh as [j [Hid Hj]].
    apply filter_In in Hj as [Hj _].
    rewrite <- Hid. now apply in_map.
Qed.

Section WithClassifier.

Variable is_skill : CandidateItem -> bool.

Lemma rank_eligible_eligible (catalog : Catalog) (L : PublicationLedger)
  (i : CandidateItem) :
  rank_eligible is_skill catalog L = Selected i ->
  In i catalog /\ eligible is_skill L i = true.
Proof.
  unfold rank_eligible.
  destruct (best _ _) as [m |] eqn:Hb; [| discriminate].
  intros [= <-]. apply best_In in Hb. now apply filter_In in Hb.
Qed.

(** The ranking does not depend on the order in which the snapshot lists
    its items. *)
Lemma rank_eligible_order (c1 c2 : Catalog) (L : PublicationLedger) :
  unique_identities c1 ->
  Permutation c1 c2 ->
  rank_eligible is_skill c1 L = rank_eligible is_skill c2 L.
Proof.
  intros Hnd Hperm. unfold rank_eligible.
  rewrite (best_unique (mostRecentCategory L)
             (filter (eligible is_skill L) c1)
             (filter (eligible is_skill L) c2)); [reflexivity | |].
  - now apply filter_unique_identities.
  - intros x. rewrite !filter_In. split; intros [Hin He]; split; auto.
    + eapply Permutation_in; eassumption.
    + eapply Permutation_in; [apply Permutation_sym |]; eassumption.
Qed.

(** What the selector returns has no record in the ledger, with or without
    the re-entry rule. *)
Lemma selectForDate_fresh (log : SelectionLog) (d : Date) (catalog : Catalog)
  (L : PublicationLedger) (i : CandidateItem) :
  selectForDate is_skill log d catalog L = Selected i ->
  contains (identity i) L = false.
Proof.
  unfold selectForDate.
  assert (Hrank : rank_eligible is_skill catalog L = Selected i ->
                  contains (identity i) L = false).
  { intros H. apply rank_eligible_eligible in H as [_ H].
    unfold eligible in H. apply andb_prop in H as [H _].
    now apply negb_true_iff in H. }
  destruct (lookup_date d log) as [j |]; [| exact Hrank].
  destruct (contains (identity j) L) eqn:E; [exact Hrank |].
  intros [= <-]. exact E.
Qed.

(** C5, as the selector of the spec has it: the selection is determined by
    the date, the catalog snapshot, the ledger and the selection log of the
    re-entry rule.  Two invocations with the same date, ledger and log and
    the same catalog snapshot (the same items under distinct identities, in
    whatever order the snapshot lists them) return the same result; and
    when the log holds no selection for the date the result is that of the
    ranking, a function of the catalog snapshot and the ledger alone. *)
Theorem selectForDate_deterministic (log : SelectionLog) (d : Date)
  (c1 c2 : Catalog) (L : PublicationLedger) :
  unique_identities c1 ->
  Permutation c1 c2 ->
  selectForDate is_skill log d c1 L = selectForDate is_skill log d c2 L
  /\ (lookup_date d log = None ->
      forall (log' : SelectionLog) (d' : Date),
        lookup_date d' log' = None ->
        selectForDate is_skill log d c1 L
        = selectForDate is_skill log' d' c2 L).
Proof.
  intros Hnd Hperm.
  pose proof (rank_eligible_order c1 c2 L Hnd Hperm) as Hrank.
  split.
  - unfold selectForDate. now rewrite Hrank.
  - intros Hnone log' d' Hnone'. unfold selectForDate.
    now rewrite Hnone, Hnone', Hrank.
Qed.

(** C6: an item whose identity has a record in the ledger is never the
    selection, whatever the catalog and the date. *)
Theorem published_never_selected (log : SelectionLog) (d : Date)
  (catalog : Catalog) (L : PublicationLedger) (i : CandidateItem) :
  contains (identity i) L = true ->
  selectForDate is_skill log d catalog L <> Selected i.
Proof.
  intros Hc Hsel. apply selectForDate_fresh in Hsel. congruence.
Qed.

End WithClassifier.

End SelectorFacts.

(* ================================================================== *)
(** * Properties of the text filters of the driver                     *)
(* ================================================================== *)

Module FilterFacts.
Import Driver.

Lemma all_chars_weaken (p q : ascii -> bool) (s : string) :
  (forall c, p c = true -> q c = true) ->
  all_chars p s = true -> all_chars q s = true.
Proof.
  intros Hpq. induction s as [| c s IH]; simpl; [reflexivity |].
  intros H. apply andb_prop in H as [Hc Hs].
  now rewrite (Hpq c Hc), (IH Hs).
Qed.

(** What the last [sed] lets through: the bracket expression and the line
    feed. *)
Lemma keep_safe_kept (s : string) :
  all_chars (fun c => safe_char c || Ascii.eqb c newline) (keep_safe s) = true.
Proof.
  induction s as [| c s IH]; simpl; [reflexivity |].
  destruct (safe_char c || Ascii.eqb c newline) eqn:E; simpl;
    [now rewrite E |]. assumption.
Qed.

Lemma kept_char_plain (c : ascii) :
  safe_char c || Ascii.eqb c newline = true ->
  negb (Ascii.eqb c "/") && negb (Ascii.eqb c ".") && negb (Ascii.eqb c " ")
  = true.
Proof.
  destruct c as [[] [] [] [] [] [] [] []]; vm_compute; congruence.
Qed.


Lemma replace_char_kept (from : ascii) (s : string) :
  safe_char from || Ascii.eqb from newline = false ->
  all_chars (fun c => safe_char c || Ascii.eqb c newline) s = true ->
  replace_char from s = s.
Proof.
  intros Hfrom. induction s as [| c s IH]; simpl; [reflexivity |].
  intros H. apply andb_prop in H as [Hc Hs]. rewrite (IH Hs).
  destruct (Ascii.eqb c from) eqn:E; [| reflexivity].
  apply Ascii.eqb_eq in E. subst. congruence.
Qed.

Lemma keep_safe_fixed (s : string) :
  all_chars (fun c => safe_char c || Ascii.eqb c newline) s = true ->
  keep_safe s = s.
Proof.
  induction s as [| c s IH]; simpl; [reflexivity |].
  intros H. apply andb_prop in H as [Hc Hs]. now rewrite Hc, (IH Hs).
Qed.

Lemma replace_char_length (from : ascii) (s : string) :
  String.length (replace_char from s) = String.length s.
Proof. induction s as [| c s IH]; simpl; congruence. Qed.

Lemma keep_safe_length (s : string) :
  (String.length (keep_safe s) <= String.length s)%nat.
Proof.
  induction s as [| c s IH]; simpl; [lia |].
  destruct (safe_char c || Ascii.eqb c newline); simpl; lia.
Qed.

Lemma replace_char_app (from : ascii) (a b : string) :
  replace_char from (a ++ b)%string
  = (replace_char from a ++ replace_char from b)%string.
Proof. induction a as [| c a IH]; simpl; congruence. Qed.

Lemma keep_safe_app (a b : string) :
  keep_safe (a ++ b)%string = (keep_safe a ++ keep_safe b)%string.
Proof.
  induction a as [| c a IH]; simpl; [reflexivity |].
  destruct (safe_char c || Ascii.eqb c newline); simpl; congruence.
Qed.

(** *** Command substitution *)

Lemma strip_final_newline (s : string) :
  strip_trailing_newlines (s ++ String newline EmptyString)%string
  = strip_trailing_newlines s.
Proof.
  induction s as [| c s IH]; [reflexivity |].
  cbn [String.append strip_trailing_newlines]. now rewrite IH.
Qed.

Lemma strip_twice (s : string) :
  strip_trailing_newlines (strip_trailing_newlines s)
  = strip_trailing_newlines s.
Proof.
  induction s as [| c s IH]; [reflexivity |].
  cbn [strip_trailing_newlines].
  destruct (strip_trailing_newlines s) as [| c' s'] eqn:E.
  - destruct (Ascii.eqb c newline) eqn:Ec; [reflexivity |].
    cbn [strip_trailing_newlines]. now rewrite Ec.
  - change (strip_trailing_newlines (String c (String c' s')))
      with (match strip_trailing_newlines (String c' s') with
            | EmptyString =>
                if Ascii.eqb c newline then EmptyString
                else String c EmptyString
            | String c'' r => String c (String c'' r)
            end).
    now rewrite IH.
Qed.


Lemma strip_all_chars (p : ascii -> bool) (s : string) :
  all_chars p s = true -> all_chars p (strip_trailing_newlines s) = true.
Proof.
  induction s as [| c s IH]; [reflexivity |].
  cbn [all_chars strip_trailing_newlines].
  intros H. apply andb_prop in H as [Hc Hs]. specialize (IH Hs).
  destruct (strip_trailing_newlines s) as [| c' s'].
  - destruct (Ascii.eqb c newline); [reflexivity |].
    cbn [all_chars]. now rewrite Hc.
  - change (all_chars p (String c (String c' s')))
      with (p c && all_chars p (String c' s')).
    now rewrite Hc, IH.
Qed.

Lemma strip_length (s : string) :
  (String.length (strip_trailing_newlines s) <= String.length s)%nat.
Proof.
  induction s as [| c s IH]; [simpl; lia |].
  cbn [strip_trailing_newlines].
  destruct (strip_trailing_newlines s) as [| c' s'].
  - destruct (Ascii.eqb c newline); simpl; lia.
  - simpl in *. lia.
Qed.

(** *** The whole pipeline *)

(** A name that is an option of [echo] is swallowed. *)
Lemma sanitize_option (n : string) :
  is_echo_option n = true -> sanitize n = EmptyString.
Proof.
  intros H. unfold sanitize, echo. rewrite H.
  destruct (all_chars _ n); reflexivity.
Qed.

(** Any other name goes through the three filters. *)
Lemma sanitize_text (n : string) :
  is_echo_option n = false ->
  sanitize n =
  strip_trailing_newlines (keep_safe (replace_char "/" (replace_char " " n))).
Proof.
  intros H. unfold sanitize, echo. rewrite H.
  rewrite !replace_char_app, keep_safe_app.
  change (keep_safe
            (replace_char "/"
               (replace_char " " (String newline EmptyString))))
    with (String newline EmptyString).
  apply strip_final_newline.
Qed.


End FilterFacts.

(* ================================================================== *)
(** * Properties of the driver                                         *)
(* ================================================================== *)

Module DriverFacts.
Import Driver.
Local Open Scope list_scope.

Ltac sh_norm :=
  cbn [world LOG_FILE trace fst snd exit_code app status output negb andb
       Nat.eqb s_status s_trace s_world command exit_status].

Ltac sh_norm_in H :=
  cbn [world LOG_FILE trace fst snd exit_code app status output negb andb
       Nat.eqb s_status s_trace s_world command exit_status] in H.

Ltac sh_unfold :=
  unfold fetch_and_select, generate, mark_and_publish, publish_step,
    run_tee_log, run, log, append_log, ask, bind, ret, exit;
  sh_norm.

(** Follow a stage of the script along every path: name the result of each
    command it runs and split on each test it makes. *)
Ltac sh_paths M :=
  repeat (sh_norm; first
    [ match goal with
      | |- context [exec M ?c ?w] =>
          let f := fresh "f" in
          let w' := fresh "w" in
          let E := fresh "E" in
          destruct (exec M c w) as [f w'] eqn:E
      end
    | match goal with
      | |- context [match count_skills M ?w with _ => _ end] =>
          let E := fresh "Ecount" in
          destruct (count_skills M w) as [[| ?] |] eqn:E
      end
    | match goal with
      | |- context [match sed_json_block ?o with _ => _ end] =>
          let E := fresh "Esed" in
          destruct (sed_json_block o) as [| ? ?] eqn:E
      end
    | match goal with
      | |- context [if ?b then _ else _] =>
          let E := fresh "Eif" in
          destruct b eqn:E
      end ]).

(** Tidy the equations the splitting leaves behind. *)
Ltac sh_clean :=
  repeat match goal with
    | H : (_, _) = (_, _) |- _ => inversion H; subst; clear H
    | H : Some _ = Some _ |- _ => inversion H; subst; clear H
    | H : S _ = S _ |- _ => inversion H; subst; clear H
    | H : _ :: _ = _ :: _ |- _ => inversion H; subst; clear H
    | H1 : ?x = _, H2 : ?x = _ |- _ => rewrite H1 in H2
    end;
  try discriminate; try congruence.

(** ** The text filters on sample input *)

Example sanitize_spaces : sanitize "Skill B" = "Skill-B"%string.
Proof. reflexivity. Qed.

Example sanitize_path : sanitize "anthropics/pdf tools (v2)!" = "anthropics-pdf-tools-v2"%string.
Proof. reflexivity. Qed.

Example sanitize_echo_option : sanitize "-n" = ""%string.
Proof. reflexivity. Qed.

Example sanitize_after_option : sanitize "-n!" = "-n"%string.
Proof. reflexivity. Qed.

Example sanitize_two_lines :
  sanitize ("my skill" ++ String newline "v2 (beta)")%string
  = ("my-skill" ++ String newline "v2-beta")%string.
Proof. reflexivity. Qed.

Example sed_json_block_sample :
  sed_json_block
    [ "[select] 3 candidates"; "{"; "  name"; "}"; "done" ]%string
  = [ "{"; "  name"; "}" ]%string.
Proof. reflexivity. Qed.

Example sed_json_block_unclosed :
  sed_json_block [ "noise"; "{"; "  name" ]%string = [ "{"; "  name" ]%string.
Proof. reflexivity. Qed.

Example grep_bracket_sample :
  grep_bracket [ "[select] 3 candidates"; "{"; "}" ]%string
  = [ "[select] 3 candidates" ]%string.
Proof. reflexivity. Qed.

Section Script.

Context {W : Type} (M : Machine W).

(** Steps 1 and 2, path by path. *)
Lemma fetch_and_select_paths (s : ShState W) :
  let w := world s in
  let i1 := invoked M fetch_skills_refresh w in
  let w1 := snd (exec M fetch_skills_refresh w) in
  let i2 := invoked M select_daily w1 in
  let w2 := snd (exec M select_daily w1) in
  exists l,
    fetch_and_select M s =
    match count_skills M w1 with
    | None | Some 0 => (Exit 1, mk w1 l (trace s ++ [i1]))
    | Some (S _) =>
        match usable_name M (output (fst (exec M select_daily w1))) with
        | None => (Exit 1, mk w2 l ((trace s ++ [i1]) ++ [i2]))
        | Some n => (Next n, mk w2 l ((trace s ++ [i1]) ++ [i2]))
        end
    end.
Proof.
  cbv zeta. unfold invoked, usable_name, mk. sh_unfold. sh_paths M.
  all: sh_clean.
  all: eexists; reflexivity.
Qed.

(** Step 3 up to the end of the generator. *)
Lemma generate_paths (SKILL_NAME : string) (s : ShState W) :
  let w := world s in
  let ARTICLE_FILE := article_file M (date_ymd M w) SKILL_NAME in
  exists l,
    generate M SKILL_NAME s =
    (Next ARTICLE_FILE,
     mk (snd (exec M (generate_article ARTICLE_FILE) w)) l
        (trace s ++ [invoked M (generate_article ARTICLE_FILE) w])).
Proof.
  cbv zeta. unfold invoked, mk. sh_unfold. sh_paths M. sh_clean.
  eexists; reflexivity.
Qed.

(** Step 5, path by path: it never exits. *)
Lemma publish_step_paths (SKILL_NAME ARTICLE_FILE : string) (s : ShState W) :
  let w := world s in
  let c5 := publish_command M SKILL_NAME ARTICLE_FILE in
  exists l,
    publish_step M SKILL_NAME ARTICLE_FILE s =
    if publish_attempted M w
    then (Next tt, mk (snd (exec M c5 w)) l (trace s ++ [invoked M c5 w]))
    else (Next tt, mk w l (trace s)).
Proof.
  cbv zeta. unfold invoked, mk, publish_attempted, publish_command. sh_unfold.
  sh_paths M.
  all: sh_clean.
  all: try (eexists; reflexivity).
  all: destruct s; eexists; reflexivity.
Qed.

(** The file check, steps 4 and 5 and the closing lines, path by path. *)
Lemma mark_and_publish_paths (SKILL_NAME ARTICLE_FILE : string) (s : ShState W) :
  let w := world s in
  let i4 := invoked M select_daily_mark_published w in
  let w4 := snd (exec M select_daily_mark_published w) in
  let c5 := publish_command M SKILL_NAME ARTICLE_FILE in
  exists l,
    mark_and_publish M SKILL_NAME ARTICLE_FILE s =
    if negb (is_file M ARTICLE_FILE w) then (Exit 1, mk w l (trace s))
    else if negb (Z.eqb (exit_status i4) 0)
    then (Exit (exit_status i4), mk w4 l (trace s ++ [i4]))
    else if publish_attempted M w4
    then (Exit 0, mk (snd (exec M c5 w4)) l ((trace s ++ [i4]) ++ [invoked M c5 w4]))
    else (Exit 0, mk w4 l (trace s ++ [i4])).
Proof.
  cbv zeta. unfold mark_and_publish.
  unfold bind at 1, ask at 1.
  destruct (is_file M ARTICLE_FILE (world s)); sh_norm.
  2: { unfold mk. sh_unfold. eexists; reflexivity. }
  unfold bind at 1, log at 1. sh_norm.
  unfold bind at 1, log at 1. sh_norm.
  unfold bind at 1, run at 1, invoked. sh_norm.
  destruct (exec M select_daily_mark_published (world s)) as [f4 w4] eqn:E4.
  sh_norm.
  destruct (status f4 =? 0)%Z; sh_norm.
  2: { unfold mk, exit. eexists; reflexivity. }
  unfold bind at 1.
  match goal with
  | |- context [publish_step M ?n ?f ?st] =>
      destruct (publish_step_paths n f st) as [l5 H5]
  end.
  cbv zeta in H5. sh_norm_in H5. rewrite H5.
  destruct (publish_attempted M w4); unfold mk; sh_unfold;
    eexists; reflexivity.
Qed.

(** The script ends with [exit], in the state its outline gives. *)
Lemma run_script_outline (w : W) :
  exists l,
    run_script M w =
    (Exit (s_status (outline M w)),
     mk (s_world (outline M w)) l (s_trace (outline M w))).
Proof.
  unfold run_script, daily_skill_digest, outline.
  unfold bind at 1.
  destruct (fetch_and_select_paths (start w)) as [l1 H1].
  cbv zeta in H1. rewrite H1. clear H1.
  change (world (start w)) with w. change (trace (start w)) with (@nil Invocation).
  cbn [app].
  destruct (count_skills M (snd (exec M fetch_skills_refresh w))) as [[| n] |];
    sh_norm; try (eexists; reflexivity).
  destruct (usable_name M
              (output (fst (exec M select_daily
                              (snd (exec M fetch_skills_refresh w))))))
    as [SKILL_NAME |]; sh_norm; try (eexists; reflexivity).
  unfold bind at 1.
  match goal with
  | |- context [generate M ?n ?st] =>
      destruct (generate_paths n st) as [l2 H2]
  end.
  cbv zeta in H2. rewrite H2. clear H2. unfold mk at 1 2. sh_norm.
  match goal with
  | |- context [mark_and_publish M ?n ?f ?st] =>
      destruct (mark_and_publish_paths n f st) as [l3 H3]
  end.
  cbv zeta in H3. rewrite H3. clear H3. unfold mk at 1. sh_norm.
  destruct (is_file M _ _); sh_norm; [| eexists; reflexivity].
  destruct (exit_status _ =? 0)%Z; sh_norm; [| eexists; reflexivity].
  destruct (publish_attempted M _); eexists; reflexivity.
Qed.

(** The script and its outline agree on status, trace and world. *)
Lemma run_outline (w : W) :
  final_status M w = s_status (outline M w)
  /\ trace (final_state M w) = s_trace (outline M w)
  /\ world (final_state M w) = s_world (outline M w).
Proof.
  unfold final_status, final_state.
  destruct (run_script_outline w) as [l H]. rewrite H.
  repeat split; reflexivity.
Qed.

(** *** The log only grows *)

Lemma grows_ret {A} (a : A) : grows (@ret W A a).
Proof. intros s. exists []. simpl. now rewrite app_nil_r. Qed.

Lemma grows_exit {A} (c : Z) : grows (@exit W A c).
Proof. intros s. exists []. simpl. now rewrite app_nil_r. Qed.

Lemma grows_ask {A} (f : W -> A) : grows (@ask W A f).
Proof. intros s. exists []. simpl. now rewrite app_nil_r. Qed.

Lemma grows_log (msg : string) : grows (log M msg).
Proof. intros s. eexists. reflexivity. Qed.

Lemma grows_append_log (lines : list string) :
  grows (@append_log W lines).
Proof. intros s. eexists. reflexivity. Qed.

Lemma grows_run (c : Command) : grows (run M c).
Proof.
  intros s. exists []. unfold run.
  destruct (exec M c (world s)). simpl. now rewrite app_nil_r.
Qed.

Lemma grows_bind {A B} (m : Sh W A) (k : A -> Sh W B) :
  grows m -> (forall a, grows (k a)) -> grows (bind m k).
Proof.
  intros Hm Hk s. unfold bind. destruct (Hm s) as [l1 H1].
  destruct (m s) as [[a | c] s1]; simpl in *.
  - destruct (Hk a s1) as [l2 H2]. exists (l1 ++ l2).
    now rewrite H2, H1, app_assoc.
  - now exists l1.
Qed.

Create HintDb sh_grows.
#[local] Hint Resolve grows_ret grows_exit grows_ask grows_log
  grows_append_log grows_run : sh_grows.

Ltac grows_tac :=
  repeat first
    [ apply grows_bind; [| intros ?]
    | solve [auto with sh_grows]
    | match goal with
      | |- grows (if ?b then _ else _) => destruct b
      | |- grows (match ?x with _ => _ end) => destruct x
      end ].

Lemma grows_run_tee_log (c : Command) : grows (run_tee_log M c).
Proof. unfold run_tee_log. grows_tac. Qed.

Lemma grows_generate (n : string) : grows (generate M n).
Proof.
  unfold generate. grows_tac. all: try apply grows_run_tee_log.
Qed.

Lemma grows_publish_step (n f : string) : grows (publish_step M n f).
Proof.
  unfold publish_step. grows_tac. all: try apply grows_run_tee_log.
Qed.

Lemma grows_mark_and_publish (n f : string) : grows (mark_and_publish M n f).
Proof.
  unfold mark_and_publish. grows_tac. all: try apply grows_publish_step.
Qed.

Lemma logged_grows {A} (m : Sh W A) (msg : string) (s : ShState W) :
  grows m -> logged msg s -> logged msg (snd (m s)).
Proof.
  intros Hm [ymd [hms Hin]]. destruct (Hm s) as [l Hl].
  exists ymd, hms. rewrite Hl. apply in_or_app. now left.
Qed.

(** What steps 1 and 2 logged is still in the log at the end. *)
Lemma logged_final (msg : string) (w : W) :
  logged msg (snd (fetch_and_select M (start w))) ->
  logged msg (final_state M w).
Proof.
  intros H. unfold final_state, run_script, daily_skill_digest.
  unfold bind at 1.
  destruct (fetch_and_select M (start w)) as [[n | c] s1]; simpl in *.
  - apply (logged_grows
             (bind (generate M n) (fun f => mark_and_publish M n f))); auto.
    apply grows_bind; [apply grows_generate |].
    intros f. apply grows_mark_and_publish.
  - assumption.
Qed.

(** Find a line of the [log] function in a log written out in full. *)
Ltac find_line :=
  first
    [ left; reflexivity
    | right; find_line
    | apply in_or_app; left; find_line
    | apply in_or_app; right; find_line ].

Ltac log_has :=
  unfold logged; sh_norm; do 2 eexists; find_line.

(** A failed refresh is reported in the log. *)
Lemma fetch_failure_logged (s : ShState W) :
  status (fst (exec M fetch_skills_refresh (world s))) <> 0%Z ->
  logged "Warning: Failed to refresh skills, using cached data"
    (snd (fetch_and_select M s)).
Proof.
  intros Hst. sh_unfold. sh_paths M. all: sh_clean.
  all: try (apply Z.eqb_eq in Eif; simpl in Hst; congruence).
  all: log_has.
Qed.

(** An empty or missing cache is reported in the log. *)
Lemma no_skills_logged (s : ShState W) :
  count_skills M (snd (exec M fetch_skills_refresh (world s))) = None
  \/ count_skills M (snd (exec M fetch_skills_refresh (world s))) = Some 0 ->
  logged "Error: No skills available. Exiting."
    (snd (fetch_and_select M s)).
Proof.
  intros Hc. sh_unfold. sh_paths M. all: sh_clean.
  all: try (simpl in Hc; destruct Hc; congruence).
  all: log_has.
Qed.

(** A selection the script cannot use is reported in the log. *)
Lemma no_selection_logged (s : ShState W) (n : nat) :
  let w1 := snd (exec M fetch_skills_refresh (world s)) in
  count_skills M w1 = Some (S n) ->
  usable_name M (output (fst (exec M select_daily w1))) = None ->
  logged "Error: Failed to select skill" (snd (fetch_and_select M s))
  \/ logged "Error: Could not parse skill name" (snd (fetch_and_select M s)).
Proof.
  cbv zeta. unfold usable_name. intros Hc Hu. sh_unfold. sh_paths M.
  all: sh_clean.
  all: simpl in Hc, Hu; sh_clean.
  all: try (match goal with
            | H : exec M select_daily _ = _ |- _ => rewrite H in Hu
            end;
            cbn [fst output] in Hu; rewrite Esed in Hu;
            match goal with
            | H : (_ || _) = false |- _ => rewrite H in Hu
            end;
            discriminate).
  all: first [ left; log_has | right; log_has ].
Qed.

(** *** The driver's stages *)

(** The paths the generator is asked to write, from the outline. *)
Lemma generated_paths_outline (w : W) :
  generated_paths (s_trace (outline M w)) =
  match selected_name M w with
  | Some n => [article_file M (date_ymd M (world_at_generation M w)) n]
  | None => []
  end.
Proof.
  unfold outline, selected_name, world_at_generation, invoked.
  destruct (count_skills M _) as [[| k] |]; try reflexivity.
  destruct (usable_name M _) as [n |]; try reflexivity.
  destruct (negb (is_file M _ _)); try reflexivity.
  sh_norm.
  destruct (negb (_ =? 0)%Z); try reflexivity.
  destruct (publish_attempted M _); reflexivity.
Qed.

(** From step 3 on, the outline of a run that selected a skill. *)
Lemma outline_selected (w : W) (n : string) :
  selected_name M w = Some n ->
  outline M w =
  after_selection M n
    [ invoked M fetch_skills_refresh w;
      invoked M select_daily (snd (exec M fetch_skills_refresh w)) ]
    (world_at_generation M w).
Proof.
  unfold selected_name, outline, after_selection, world_at_generation.
  destruct (count_skills M _) as [[| k] |]; try discriminate.
  intros ->. cbn [app].
  destruct (negb (is_file M _ _)); [reflexivity |].
  destruct (negb (_ =? 0)%Z); [reflexivity |].
  destruct (publish_attempted M _); reflexivity.
Qed.

(** The selector is reached whenever the cache holds a skill. *)
Lemma reaches_select (w : W) (k : nat) :
  count_skills M (snd (exec M fetch_skills_refresh w)) = Some (S k) ->
  ran is_select (s_trace (outline M w)) = true.
Proof.
  intros H. unfold outline. rewrite H.
  destruct (usable_name M _); [| reflexivity].
  destruct (negb (is_file M _ _)); [reflexivity |].
  destruct (negb (_ =? 0)%Z); [reflexivity |].
  destruct (publish_attempted M _); reflexivity.
Qed.

(** Whenever the publish command runs, the article file was found, the
    mark-published command has run before it and succeeded, and the run
    ends with status 0. *)
Lemma publish_ran_shape (w : W) :
  ran is_publish (s_trace (outline M w)) = true ->
  exists n,
    selected_name M w = Some n
    /\ let w1 := snd (exec M fetch_skills_refresh w) in
       let w2 := world_at_generation M w in
       let file := article_file M (date_ymd M w2) n in
       let w3 := snd (exec M (generate_article file) w2) in
       let w4 := snd (exec M select_daily_mark_published w3) in
       let c5 := publish_command M n file in
       is_file M file w3 = true
       /\ status (fst (exec M select_daily_mark_published w3)) = 0%Z
       /\ outline M w =
          {| s_status := 0;
             s_trace := [ invoked M fetch_skills_refresh w;
                          invoked M select_daily w1;
                          invoked M (generate_article file) w2;
                          invoked M select_daily_mark_published w3;
                          invoked M c5 w4 ];
             s_world := snd (exec M c5 w4) |}.
Proof.
  destruct (selected_name M w) as [n |] eqn:Hn.
  - rewrite (outline_selected w n Hn). unfold after_selection.
    intros H. exists n. split; [reflexivity |]. cbv zeta.
    unfold invoked in *. cbn [exit_status] in *.
    destruct (is_file M _ _) eqn:Hfile; cbn [negb] in *; [| discriminate].
    destruct (status _ =? 0)%Z eqn:Hst; cbn [negb] in *; [| discriminate].
    apply Z.eqb_eq in Hst.
    destruct (publish_attempted M _); [| discriminate].
    repeat split; assumption.
  - intros H. exfalso. revert H.
    unfold selected_name in Hn. unfold outline.
    destruct (count_skills M _) as [[| k] |]; try discriminate.
    rewrite Hn. discriminate.
Qed.

(** A run that exits with status 0 has run the generator and found its
    article file; no run ends well without an article. *)
Lemma success_has_article (w : W) :
  final_status M w = 0%Z ->
  ran is_generate (trace (final_state M w)) = true
  /\ ran is_mark_published (trace (final_state M w)) = true.
Proof.
  destruct (run_outline w) as [Hs [Ht _]]. rewrite Hs, Ht. clear Hs Ht.
  unfold outline, invoked.
  destruct (count_skills M _) as [[| k] |]; sh_norm; try discriminate.
  destruct (usable_name M _) as [n |]; sh_norm; try discriminate.
  destruct (negb (is_file M _ _)); sh_norm; try discriminate.
  destruct (negb (_ =? 0)%Z) eqn:E; sh_norm.
  - intros H. rewrite H in E. discriminate.
  - destruct (publish_attempted M _); split; reflexivity.
Qed.

(** C4: when the refresh of step 1 fails, the warning is logged; with a
    cached catalog of at least one skill the run is not ended by it and
    goes on to run the selector on the world the failed refresh left (the
    cached catalog); with no cached catalog, or an empty one, the run ends
    there with status 1, the error logged and nothing else run. *)
Theorem fetch_failure_policy (w : W) :
  status (fst (exec M fetch_skills_refresh w)) <> 0%Z ->
  let w1 := snd (exec M fetch_skills_refresh w) in
  logged "Warning: Failed to refresh skills, using cached data"
    (final_state M w)
  /\ (forall n, count_skills M w1 = Some (S n) ->
      exists rest,
        trace (final_state M w) =
        invoked M fetch_skills_refresh w :: invoked M select_daily w1 :: rest)
  /\ (count_skills M w1 = None \/ count_skills M w1 = Some 0 ->
      final_status M w = 1%Z
      /\ trace (final_state M w) = [invoked M fetch_skills_refresh w]
      /\ logged "Error: No skills available. Exiting." (final_state M w)).
Proof.
  intros Hst w1. destruct (run_outline w) as [Hs [Ht _]].
  repeat split.
  - apply logged_final. now apply fetch_failure_logged.
  - intros n Hc. rewrite Ht. unfold outline. fold w1. rewrite Hc.
    destruct (usable_name M _); [| eexists; reflexivity].
    destruct (negb (is_file M _ _)); [eexists; reflexivity |].
    destruct (negb (_ =? 0)%Z); [eexists; reflexivity |].
    destruct (publish_attempted M _); eexists; reflexivity.
  - rewrite Hs. unfold outline. fold w1. destruct H as [-> | ->]; reflexivity.
  - rewrite Ht. unfold outline. fold w1. destruct H as [-> | ->]; reflexivity.
  - apply logged_final. now apply no_skills_logged.
Qed.

(** C2, as the script has it: when the run reaches step 2 and the output
    of the selector yields no usable selection (no JSON block, or no name
    in it), which is how a day without an eligible item reaches the
    driver, the run ends at step 2 with status 1 and an error in the log;
    no article is generated, nothing is marked published and no publish
    call is made. *)
Theorem no_selection_fails (w : W) (n : nat) :
  let w1 := snd (exec M fetch_skills_refresh w) in
  count_skills M w1 = Some (S n) ->
  usable_name M (output (fst (exec M select_daily w1))) = None ->
  final_status M w = 1%Z
  /\ ran is_generate (trace (final_state M w)) = false
  /\ ran is_mark_published (trace (final_state M w)) = false
  /\ ran is_publish (trace (final_state M w)) = false
  /\ (logged "Error: Failed to select skill" (final_state M w)
      \/ logged "Error: Could not parse skill name" (final_state M w)).
Proof.
  intros w1 Hc Hu. destruct (run_outline w) as [Hs [Ht _]].
  rewrite Hs, Ht. unfold outline. fold w1. rewrite Hc, Hu.
  repeat split.
  destruct (no_selection_logged (start w) n Hc Hu) as [H | H];
    [left | right]; now apply logged_final.
Qed.


(** Whatever holds of the world and is kept by every command holds at the
    end of the run. *)
Lemma outline_invariant (P : W -> Prop) (w : W) :
  (forall c w0, P w0 -> P (snd (exec M c w0))) ->
  P w -> P (s_world (outline M w)).
Proof.
  intros Hstep H0. unfold outline.
  destruct (count_skills M _) as [[| k] |]; sh_norm; auto.
  destruct (usable_name M _) as [n |]; sh_norm; auto.
  destruct (negb (is_file M _ _)); sh_norm; auto.
  destruct (negb (_ =? 0)%Z); sh_norm; auto.
  destruct (publish_attempted M _); sh_norm; auto 10.
Qed.

End Script.

Lemma publish_failed_ran (t : list Invocation) :
  publish_failed t = true -> ran is_publish t = true.
Proof.
  unfold publish_failed, ran. rewrite !existsb_exists.
  intros [x [Hin H]]. exists x. split; [assumption |].
  now apply andb_prop in H.
Qed.

End DriverFacts.

(* ================================================================== *)
(** * The driver in the modelled world                                 *)
(* ================================================================== *)

Module SimFacts.
Import Ledger Selector Driver Sim.
Import LedgerFacts SelectorFacts DriverFacts.
Local Open Scope list_scope.

Lemma drop_last_dq (v : string) : drop_last (v ++ dq)%string = v.
Proof.
  induction v as [| c v IH]; [reflexivity |].
  simpl. rewrite IH. destruct (v ++ dq)%string eqn:E; [| reflexivity].
  destruct v; discriminate.
Qed.

(** The name the script reads back from what the selector prints. *)
Lemma read_name_render (i : CandidateItem) :
  read_name (render_item i) = Some (name i).
Proof.
  unfold render_item, read_name, json_field. simpl.
  now rewrite drop_last_dq.
Qed.

Lemma sed_render (i : CandidateItem) :
  sed_json_block ("[select] selected"%string :: render_item i) = render_item i.
Proof. reflexivity. Qed.

Lemma usable_name_render (k : string) (i : CandidateItem) :
  usable_name (machine k) ("[select] selected"%string :: render_item i) =
  if name_usable i then Some (name i) else None.
Proof.
  unfold usable_name, name_usable. rewrite sed_render.
  cbn [json_name machine]. rewrite read_name_render.
  unfold render_item at 1.
  destruct (_ || _); reflexivity.
Qed.

Lemma sim_select_selected (w : SimWorld) (i : CandidateItem) :
  select_for_run w = Selected i ->
  sim_select w =
  ({| output := "[select] selected"%string :: render_item i; status := 0 |},
   with_store w {| skill_cache := skill_cache (store w);
                   published := published (store w);
                   selection_log := (today (cond w), i) :: selection_log (store w);
                   files := files (store w) |}).
Proof. intros H. unfold sim_select. now rewrite H. Qed.

Lemma sim_select_none (w : SimWorld) :
  select_for_run w = NoEligibleItem ->
  sim_select w =
  ({| output := ["[select] no eligible item"%string]; status := 0 |}, w).
Proof. intros H. unfold sim_select. now rewrite H. Qed.

(** What the selector selects has no record in the ledger. *)
Lemma select_for_run_fresh (w : SimWorld) (i : CandidateItem) :
  select_for_run w = Selected i ->
  contains (identity i) (published (store w)) = false.
Proof.
  unfold select_for_run. apply selectForDate_fresh.
Qed.

(** Every command leaves the conditions of the run alone. *)
Lemma sim_exec_cond (c : Command) (w : SimWorld) :
  cond (snd (sim_exec c w)) = cond w.
Proof.
  destruct c; simpl.
  - unfold sim_fetch. destruct (upstream (cond w)) as [[| ? ?] |]; reflexivity.
  - unfold sim_select. destruct (select_for_run w); reflexivity.
  - unfold sim_generate. destruct (generator_up (cond w)); reflexivity.
  - unfold sim_mark. destruct (lookup_date _ _); [| reflexivity].
    destruct (ledger_writable (cond w)); reflexivity.
  - unfold sim_publish. destruct (channel_up (cond w)); reflexivity.
Qed.

(** Every command keeps the ledger free of duplicates. *)
Lemma sim_exec_NoDup (c : Command) (w : SimWorld) :
  NoDup (identities (published (store w))) ->
  NoDup (identities (published (store (snd (sim_exec c w))))).
Proof.
  intros H. destruct c; simpl.
  - unfold sim_fetch. destruct (upstream (cond w)) as [[| ? ?] |]; assumption.
  - unfold sim_select. destruct (select_for_run w); assumption.
  - unfold sim_generate. destruct (generator_up (cond w)); assumption.
  - unfold sim_mark. destruct (lookup_date _ _); [| assumption].
    destruct (ledger_writable (cond w)); [| assumption].
    simpl. now apply markPublished_NoDup.
  - unfold sim_publish. destruct (channel_up (cond w)); assumption.
Qed.

(** A run keeps the ledger free of duplicates. *)
Lemma run_NoDup (c : Conditions) (st : Store) :
  NoDup (identities (published st)) ->
  NoDup (identities (published (store_after c st))).
Proof.
  intros H. unfold store_after, run.
  destruct (run_outline (machine (api_key c)) {| store := st; cond := c |})
    as [_ [_ Hw]].
  unfold final_state in Hw. rewrite Hw.
  apply (outline_invariant (machine (api_key c))
           (fun w => NoDup (identities (published (store w))))); auto.
  intros cmd w0. apply sim_exec_NoDup.
Qed.

Lemma sim_fetch_keeps (w : SimWorld) :
  published (store (snd (sim_fetch w))) = published (store w)
  /\ selection_log (store (snd (sim_fetch w))) = selection_log (store w)
  /\ files (store (snd (sim_fetch w))) = files (store w)
  /\ cond (snd (sim_fetch w)) = cond w.
Proof.
  unfold sim_fetch. destruct (upstream (cond w)) as [[| ? ?] |];
    repeat split; reflexivity.
Qed.

(** After the refresh of step 1 a cache that held skills still does. *)
Lemma sim_fetch_count (w : SimWorld) (n : nat) :
  option_map (@List.length CandidateItem) (skill_cache (store w)) = Some (S n) ->
  exists m,
    option_map (@List.length CandidateItem)
      (skill_cache (store (snd (sim_fetch w)))) = Some (S m).
Proof.
  intros H. unfold sim_fetch.
  destruct (upstream (cond w)) as [[| x l] |]; simpl; eauto.
Qed.


Lemma sim_status (c : Conditions) (st : Store) :
  status_of c st = s_status (outline (machine (api_key c)) {| store := st; cond := c |}).
Proof.
  unfold status_of, run.
  now destruct (run_outline (machine (api_key c)) {| store := st; cond := c |})
    as [H _].
Qed.

Lemma sim_trace (c : Conditions) (st : Store) :
  trace_of c st = s_trace (outline (machine (api_key c)) {| store := st; cond := c |}).
Proof.
  unfold trace_of, run.
  now destruct (run_outline (machine (api_key c)) {| store := st; cond := c |})
    as [_ [H _]].
Qed.

Lemma sim_world (c : Conditions) (st : Store) :
  world (snd (run c st)) = s_world (outline (machine (api_key c)) {| store := st; cond := c |}).
Proof.
  unfold run.
  now destruct (run_outline (machine (api_key c)) {| store := st; cond := c |})
    as [_ [_ H]].
Qed.


(** The name step 2 goes on with, in terms of what the selector selected. *)
Lemma sim_selected_name (c : Conditions) (st : Store) (n : string) :
  let M := machine (api_key c) in
  let w0 := {| store := st; cond := c |} in
  let w1 := snd (sim_fetch w0) in
  selected_name M w0 = Some n ->
  exists i k,
    selection_of c st = Selected i
    /\ n = name i
    /\ count_skills M w1 = Some (S k)
    /\ world_at_generation M w0 =
       with_store w1 {| skill_cache := skill_cache (store w1);
                        published := published (store w1);
                        selection_log :=
                          (today (cond w1), i) :: selection_log (store w1);
                        files := files (store w1) |}.
Proof.
  intros M w0 w1.
  unfold selected_name, world_at_generation, selection_of.
  change (exec M) with sim_exec. cbn [sim_exec]. fold w0. fold w1.
  destruct (count_skills M w1) as [[| k] |] eqn:Hc; try discriminate.
  destruct (select_for_run w1) as [i |] eqn:Hsel.
  - rewrite (sim_select_selected w1 i Hsel). cbn [fst snd output].
    unfold M. rewrite usable_name_render.
    destruct (name_usable i); [| discriminate].
    intros [= <-]. exists i, k. repeat split.
  - rewrite (sim_select_none w1 Hsel). discriminate.
Qed.

Lemma sim_mark_is_file (k p : string) (w : SimWorld) :
  is_file (machine k) p (snd (sim_mark w)) = is_file (machine k) p w.
Proof.
  unfold sim_mark. destruct (lookup_date _ _); [| reflexivity].
  destruct (ledger_writable (cond w)); reflexivity.
Qed.

Lemma sim_publish_world (w : SimWorld) : snd (sim_publish w) = w.
Proof. unfold sim_publish. destruct (channel_up (cond w)); reflexivity. Qed.

Lemma sim_generate_keeps (p : string) (w : SimWorld) :
  published (store (snd (sim_generate p w))) = published (store w)
  /\ selection_log (store (snd (sim_generate p w))) = selection_log (store w)
  /\ skill_cache (store (snd (sim_generate p w))) = skill_cache (store w)
  /\ cond (snd (sim_generate p w)) = cond w.
Proof.
  unfold sim_generate. destruct (generator_up (cond w)); repeat split.
Qed.

(** A selection logged for the day and not yet published is selected
    again. *)
Lemma select_for_run_reentry (w : SimWorld) (i : CandidateItem)
  (rest : list (Date * CandidateItem)) :
  selection_log (store w) = (today (cond w), i) :: rest ->
  contains (identity i) (published (store w)) = false ->
  select_for_run w = Selected i.
Proof.
  intros Hlog Hc. unfold select_for_run, selectForDate. rewrite Hlog. simpl.
  rewrite String.eqb_refl. now rewrite Hc.
Qed.

(** C3, as the script has it: a run in which no article file is there
    after the generator has run ends with status 1 without running the
    mark-published command, so the ledger is as it was; a later run on the
    same calendar date, whatever its conditions, reaches the selector and
    selects the identical item again. *)
Theorem generation_failure_retries (c c' : Conditions) (st : Store) :
  article_missing c st = true ->
  today c' = today c ->
  status_of c st = 1%Z
  /\ ran is_mark_published (trace_of c st) = false
  /\ published (store_after c st) = published st
  /\ ran is_select (trace_of c' (store_after c st)) = true
  /\ exists i, selection_of c st = Selected i
             /\ selection_of c' (store_after c st) = Selected i.
Proof.
  intros Hmiss Hday.
  unfold article_missing in Hmiss.
  rewrite sim_trace, generated_paths_outline in Hmiss.
  destruct (selected_name _ _) as [n |] eqn:Hn; [| discriminate].
  rewrite sim_world, (outline_selected _ _ _ Hn) in Hmiss.
  unfold store_after. rewrite sim_world, sim_status, !sim_trace.
  rewrite (outline_selected _ _ _ Hn).
  destruct (sim_selected_name c st n Hn) as [i [k [Hsel [-> [Hc Hw2]]]]].
  rewrite Hw2 in *. clear Hw2 Hn.
  set (w1 := snd (sim_fetch {| store := st; cond := c |})) in *.
  destruct (sim_fetch_keeps {| store := st; cond := c |})
    as [Hpub [Hlog [Hfiles Hcond]]].
  fold w1 in Hpub, Hlog, Hfiles, Hcond. simpl in Hpub, Hlog, Hfiles, Hcond.
  unfold after_selection in *. unfold invoked in *.
  change (exec (machine (api_key c))) with sim_exec in *. cbn [sim_exec] in *.
  set (w2 := with_store w1 _) in *.
  set (file := article_file _ _ _) in *.
  destruct (sim_generate_keeps file w2) as [Gpub [Glog [Gcache Gcond]]].
  destruct (is_file _ file (snd (sim_generate file w2))) eqn:Hfile;
    cbn [negb] in *.
  - (* the file is there: the hypothesis fails *)
    exfalso.
    destruct (negb (_ =? 0)%Z); cbn [s_world] in Hmiss.
    + rewrite sim_mark_is_file, Hfile in Hmiss. discriminate.
    + destruct (publish_attempted _ _); cbn [s_world] in Hmiss.
      * change (exec (machine (api_key c))) with sim_exec in Hmiss.
        cbn [sim_exec] in Hmiss.
        rewrite sim_publish_world, sim_mark_is_file, Hfile in Hmiss.
        discriminate.
      * rewrite sim_mark_is_file, Hfile in Hmiss. discriminate.
  - cbn [s_status s_trace s_world].
    split; [reflexivity |]. split; [reflexivity |].
    split; [rewrite Gpub; exact Hpub |].
    set (st' := store (snd (sim_generate file w2))).
    assert (Hcache' : exists m,
               count_skills (machine (api_key c'))
                 (snd (sim_fetch {| store := st'; cond := c' |})) = Some (S m)).
    { apply (sim_fetch_count {| store := st'; cond := c' |} k).
      unfold st'. cbn [store]. rewrite Gcache. exact Hc. }
    destruct Hcache' as [m Hm].
    split.
    + apply (reaches_select (machine (api_key c'))
               {| store := st'; cond := c' |} m Hm).
    + exists i. split; [exact Hsel |].
      unfold selection_of.
      destruct (sim_fetch_keeps {| store := st'; cond := c' |})
        as [Hpub' [Hlog' [_ Hcond']]].
      cbn [store cond] in Hpub', Hlog', Hcond'.
      eapply select_for_run_reentry.
      * rewrite Hlog', Hcond'. unfold st'. rewrite Glog. unfold w2.
        cbn [with_store store selection_log]. rewrite Hcond, Hday.
        reflexivity.
      * rewrite Hpub'. unfold st'. rewrite Gpub. unfold w2.
        cbn [with_store store published]. rewrite Hpub.
        apply select_for_run_fresh in Hsel.
        fold w1 in Hsel. now rewrite Hpub in Hsel.
Qed.


(** C1, as the script has it: in a run whose publish command fails, the
    article was generated and the selected item has already been marked
    published, by the mark-published command that ran, and succeeded,
    between the generator and the publish command; the run still ends with
    status 0, and a later run no longer selects that item.  The ledger, if
    it held at most one record per identity before, still does after the
    run and after any later run. *)
Theorem publish_failure_already_marked (c c' : Conditions) (st : Store) :
  publish_failed (trace_of c st) = true ->
  NoDup (identities (published st)) ->
  status_of c st = 0%Z
  /\ (exists i,
        selection_of c st = Selected i
        /\ contains (identity i) (published (store_after c st)) = true
        /\ selection_of c' (store_after c st) <> Selected i)
  /\ (exists file script args,
        map command (trace_of c st) =
        [ fetch_skills_refresh; select_daily; generate_article file;
          select_daily_mark_published; publish script args ]
        /\ mark_succeeded (trace_of c st) = true)
  /\ NoDup (identities (published (store_after c st)))
  /\ NoDup (identities (published (store_after c' (store_after c st)))).
Proof.
  intros Hfail Hnd.
  assert (Hnd1 := run_NoDup c st Hnd).
  assert (Hnd2 := run_NoDup c' _ Hnd1).
  apply publish_failed_ran in Hfail. rewrite sim_trace in Hfail.
  destruct (publish_ran_shape _ _ Hfail) as [n [Hn Hshape]].
  cbv zeta in Hshape. destruct Hshape as [Hfile [Hst Hout]].
  destruct (sim_selected_name c st n Hn) as [i [k [Hsel [-> [Hc Hw2]]]]].
  rewrite Hw2 in *. clear Hw2 Hn.
  set (w1 := snd (sim_fetch {| store := st; cond := c |})) in *.
  set (w2 := with_store w1 _) in *.
  set (file := article_file _ _ _) in *.
  change (exec (machine (api_key c))) with sim_exec in *.
  cbn [sim_exec] in *.
  set (w3 := snd (sim_generate file w2)) in *.
  destruct (sim_generate_keeps file w2) as [Gpub [Glog [Gcache Gcond]]].
  fold w3 in Gpub, Glog, Gcache, Gcond.
  assert (Hlook : lookup_date (today (cond w3)) (selection_log (store w3))
                  = Some i).
  { rewrite Glog, Gcond. unfold w2. cbn [with_store store cond selection_log].
    cbn [lookup_date]. now rewrite String.eqb_refl. }
  assert (Hmark : published (store (snd (sim_mark w3))) =
                  markPublished (identity i) (category i) (today (cond w3))
                    (published (store w3))).
  { revert Hst. unfold sim_mark. rewrite Hlook.
    destruct (ledger_writable (cond w3)); [reflexivity | discriminate]. }
  assert (Hfinal : published (store_after c st) =
                   markPublished (identity i) (category i) (today (cond w3))
                     (published (store w3))).
  { unfold store_after. rewrite sim_world, Hout. cbn [s_world].
    now rewrite sim_publish_world. }
  repeat split; auto.
  - rewrite sim_status, Hout. reflexivity.
  - exists i. repeat split; [exact Hsel | |].
    + rewrite Hfinal. apply markPublished_contains.
    + intros Hagain. unfold selection_of in Hagain.
      apply select_for_run_fresh in Hagain.
      destruct (sim_fetch_keeps {| store := store_after c st; cond := c' |})
        as [Hpub' _].
      rewrite Hpub' in Hagain. cbn [store] in Hagain.
      rewrite Hfinal, markPublished_contains in Hagain. discriminate.
  - rewrite sim_trace, Hout. cbn [s_trace].
    do 3 eexists. split; [reflexivity |].
    unfold mark_succeeded, invoked. cbn [existsb is_mark_published command
      exit_status andb orb exec machine sim_exec].
    fold w3. rewrite Hst. reflexivity.
Qed.

(** ** The scenarios of the spec *)

Example scenario_first_day :
  selectForDate by_category [] "2024-01-15"%string catalog_ABC []
  = Selected item_B.
Proof. reflexivity. Qed.

Example scenario_B_published :
  selectForDate by_category [] "2024-01-16"%string catalog_ABC
    [ {| rec_identity := "https://github.com/x/b"; rec_category := "tools";
         publishedAt := "2024-01-15" |} ]
  = Selected item_A.
Proof. reflexivity. Qed.

Example scenario_all_published :
  selectForDate by_category [] "2024-01-15"%string catalog_ABC
    (published spent_store) = NoEligibleItem.
Proof. reflexivity. Qed.

(** ** Sample runs *)

(** A day on which everything works: B is selected, written up, marked and
    published. *)
Example good_day_run :
  status_of good_day fresh_store = 0%Z
  /\ map command (trace_of good_day fresh_store) =
     [ fetch_skills_refresh;
       select_daily;
       generate_article
         "/home/user/Documents/Obsidian/ai自动生成/skill-digest/2024-01-15-Skill-B.md";
       select_daily_mark_published;
       publish "/home/user/.claude/skills/wechat-publish/scripts/publish.py"
         {| arg_appid := "wx5c5f1c55d02d1354";
            arg_title := "每日Skill精选：Skill B";
            arg_content_file :=
              "/home/user/Documents/Obsidian/ai自动生成/skill-digest/2024-01-15-Skill-B.md";
            arg_author := "三更AI" |} ]
  /\ identities (published (store_after good_day fresh_store))
     = [ "https://github.com/x/b"%string ].
Proof. repeat split; vm_compute; reflexivity. Qed.

(** The aggregator is down and nothing was ever cached: the run ends at
    step 1. *)
Example no_cache_run :
  status_of (set_upstream None good_day) empty_store = 1%Z
  /\ map command (trace_of (set_upstream None good_day) empty_store)
     = [ fetch_skills_refresh ].
Proof. split; vm_compute; reflexivity. Qed.

(** The aggregator is down and yesterday's cache is there: the run goes
    through. *)
Example cached_run :
  status_of (set_upstream None good_day) fresh_store = 0%Z
  /\ identities (published (store_after (set_upstream None good_day) fresh_store))
     = [ "https://github.com/x/b"%string ].
Proof. split; vm_compute; reflexivity. Qed.

(** ** The claims at concrete runs *)

(** The same snapshot listed in the opposite order, on a day for which A
    was selected before. *)
Lemma selectForDate_deterministic_witness :
  unique_identities catalog_ABC
  /\ Permutation catalog_ABC (rev catalog_ABC)
  /\ selectForDate by_category [("2024-01-15"%string, item_A)]
       "2024-01-15"%string catalog_ABC []
     = selectForDate by_category [("2024-01-15"%string, item_A)]
         "2024-01-15"%string (rev catalog_ABC) [].
Proof.
  assert (Hnd : unique_identities catalog_ABC).
  { unfold unique_identities. simpl.
    repeat constructor; simpl; intuition discriminate. }
  split; [exact Hnd |]. split; [apply Permutation_rev |].
  exact (proj1 (selectForDate_deterministic by_category
                  [("2024-01-15"%string, item_A)] "2024-01-15"%string
                  catalog_ABC (rev catalog_ABC) [] Hnd
                  (Permutation_rev catalog_ABC))).
Defined.

(** C5 as the spec states it fails for the selector with its re-entry
    rule: on the same date, catalog and ledger it returns A when A was
    logged for the date and B, the top of the ranking, when nothing was. *)
Lemma selection_depends_on_log :
  selectForDate by_category [("2024-01-15"%string, item_A)]
    "2024-01-15"%string catalog_ABC [] = Selected item_A
  /\ selectForDate by_category [] "2024-01-15"%string catalog_ABC []
     = Selected item_B
  /\ selectForDate by_category [("2024-01-15"%string, item_A)]
       "2024-01-15"%string catalog_ABC []
     <> selectForDate by_category [] "2024-01-15"%string catalog_ABC [].
Proof.
  split; [vm_compute; reflexivity |].
  split; [vm_compute; reflexivity |].
  vm_compute. discriminate.
Qed.

(** B is in the ledger and is not selected, though it was logged for the
    date. *)
Lemma published_never_selected_witness :
  contains (identity item_B) (published spent_store) = true
  /\ selectForDate by_category [("2024-01-15"%string, item_B)]
       "2024-01-15"%string catalog_ABC (published spent_store)
     <> Selected item_B.
Proof.
  split; [reflexivity |].
  apply (published_never_selected by_category
           [("2024-01-15"%string, item_B)] "2024-01-15"%string catalog_ABC
           (published spent_store) item_B).
  reflexivity.
Defined.

(** The aggregator is down and yesterday's cache is there. *)
Lemma fetch_failure_policy_witness :
  status (fst (exec (machine "key") fetch_skills_refresh
                 {| store := fresh_store; cond := set_upstream None good_day |}))
  <> 0%Z
  /\ logged "Warning: Failed to refresh skills, using cached data"
       (final_state (machine "key")
          {| store := fresh_store; cond := set_upstream None good_day |}).
Proof.
  assert (H : status (fst (exec (machine "key") fetch_skills_refresh
                 {| store := fresh_store; cond := set_upstream None good_day |}))
              <> 0%Z).
  { simpl. discriminate. }
  split; [exact H |].
  apply (fetch_failure_policy (machine "key")
           {| store := fresh_store; cond := set_upstream None good_day |} H).
Defined.

(** A and B are published, C is documentation: nothing to select. *)
Lemma no_selection_fails_witness :
  final_status (machine "key") {| store := spent_store; cond := good_day |}
  = 1%Z.
Proof.
  apply (no_selection_fails (machine "key")
           {| store := spent_store; cond := good_day |} 2);
    reflexivity.
Defined.



(** C3 as the spec states it fails: generation fails and the run goes on.
    After a run of the day that wrote the article of B and could not write
    the ledger, a second run whose generator fails finds the file of the
    first, marks B published and ends with status 0. *)
Lemma stale_article_passes :
  files half_done_store
  = [ "/home/user/Documents/Obsidian/ai自动生成/skill-digest/2024-01-15-Skill-B.md"%string ]
  /\ selection_of (set_generator false good_day) half_done_store
     = Selected item_B
  /\ generator_failed (trace_of (set_generator false good_day) half_done_store)
     = true
  /\ status_of (set_generator false good_day) half_done_store = 0%Z
  /\ ran is_mark_published
       (trace_of (set_generator false good_day) half_done_store) = true
  /\ contains (identity item_B) (published half_done_store) = false
  /\ contains (identity item_B)
       (published (store_after (set_generator false good_day) half_done_store))
     = true.
Proof.
  repeat split; vm_compute; reflexivity.
Qed.

(** The generation service is down, then comes back the same day. *)
Lemma generation_failure_retries_witness :
  article_missing (set_generator false good_day) fresh_store = true
  /\ status_of (set_generator false good_day) fresh_store = 1%Z.
Proof.
  split; [reflexivity |].
  apply (generation_failure_retries (set_generator false good_day) good_day
           fresh_store); reflexivity.
Defined.

(** The publish channel is down. *)
Lemma publish_failure_already_marked_witness :
  publish_failed (trace_of (set_channel false good_day) fresh_store) = true
  /\ NoDup (identities (published fresh_store))
  /\ status_of (set_channel false good_day) fresh_store = 0%Z.
Proof.
  split; [reflexivity |]. split; [constructor |].
  apply (publish_failure_already_marked (set_channel false good_day) good_day
           fresh_store); [reflexivity | constructor].
Defined.

(** C1 as the spec states it fails: on a day the article is generated and
    the publish command fails, the run has written the ledger entry of the
    selected item B. *)
Lemma publish_failure_marks_item :
  selection_of (set_channel false good_day) fresh_store = Selected item_B
  /\ publish_failed (trace_of (set_channel false good_day) fresh_store) = true
  /\ published (store_after (set_channel false good_day) fresh_store)
     = [ {| rec_identity := identity item_B; rec_category := "tools";
            publishedAt := "2024-01-15" |} ]
  /\ published (store_after (set_channel false good_day) fresh_store)
     <> published fresh_store.
Proof.
  split; [vm_compute; reflexivity |].
  split; [vm_compute; reflexivity |].
  split; [vm_compute; reflexivity |].
  vm_compute. discriminate.
Qed.

(** C2 as the spec states it fails: on a day without an eligible item the
    run ends with status 1, not as a success. *)
Lemma no_eligible_item_exits_1 :
  selection_of good_day spent_store = NoEligibleItem
  /\ status_of good_day spent_store = 1%Z
  /\ status_of good_day spent_store <> 0%Z.
Proof.
  split; [vm_compute; reflexivity |].
  split; [vm_compute; reflexivity |].
  vm_compute. discriminate.
Qed.

End SimFacts.

(* ================================================================== *)
(** * More on the worker                                               *)
(* ================================================================== *)

Module WorkerMore.
Import Worker WorkerFacts.
Local Open Scope list_scope.

(** X1: on every path other than [/trigger] the [fetch] handler touches
    nothing: whatever the environment and the network, it makes no network
    call, logs nothing, and answers with the landing page as JSON. *)
Theorem other_paths_are_silent (request : Request) (env : Env) (w : World) :
  url_pathname request <> "/trigger"%string ->
  fetch request env w =
  (Return (json_response (JSON_stringify info_page 2)), []).
Proof.
  intros Hpath. unfold fetch.
  apply String.eqb_neq in Hpath. rewrite Hpath. reflexivity.
Qed.

(** A path that differs from [/trigger] by a trailing slash. *)
Lemma other_paths_are_silent_witness :
  url_pathname {| url_pathname := "/trigger/" |} <> "/trigger"%string
  /\ fetch {| url_pathname := "/trigger/" |} env_with_token world_accepting
     = (Return (json_response (JSON_stringify info_page 2)), []).
Proof.
  split; [discriminate |].
  apply (other_paths_are_silent {| url_pathname := "/trigger/" |}
           env_with_token world_accepting).
  discriminate.
Defined.

(** X2: neither handler ever throws.  Whatever the request, the
    environment and the behaviour of the network (a rejected [fetch], an
    unreadable body), [scheduled] completes normally and [fetch] returns a
    response whose content type is JSON. *)
Theorem handlers_never_throw (request : Request) (env : Env) (w : World) :
  completion (scheduled env) w = Return tt
  /\ exists body,
       completion (fetch request env) w = Return (json_response body).
Proof.
  destruct (triggerWorkflow_returns env w) as [props Hret].
  unfold completion in *. split.
  - unfold scheduled, bind, console_log.
    destruct (triggerWorkflow env w) as [r t]. simpl in Hret. subst r.
    reflexivity.
  - unfold fetch. destruct (String.eqb _ _).
    + unfold bind, ret.
      destruct (triggerWorkflow env w) as [r t]. simpl in Hret. subst r.
      eexists. reflexivity.
    + eexists. reflexivity.
Qed.

(** X3: [triggerWorkflow] calls the network at most once, and only with a
    token: every call it makes carries the bearer token of the environment
    (a non-empty string) and the Accept, User-Agent and Content-Type
    headers of the dispatch. *)
Theorem dispatch_is_authorized (env : Env) (w : World) :
  (List.length (effects (triggerWorkflow env) w) <= 1)%nat
  /\ Forall (fun e =>
              exists token,
                GITHUB_TOKEN env = Some token
                /\ token <> ""%string
                /\ authorized_with token e)
       (net_calls (triggerWorkflow env) w).
Proof.
  unfold net_calls. rewrite triggerWorkflow_effects.
  destruct (GITHUB_TOKEN env) as [token |] eqn:Htok; simpl.
  - destruct (String.eqb token "") eqn:E; simpl.
    + split; [lia | constructor].
    + split; [lia |]. constructor; [| constructor].
      exists token. split; [reflexivity |]. split.
      * now apply String.eqb_neq.
      * simpl. repeat split; reflexivity.
  - split; [lia | constructor].
Qed.

(** X4: the shape of the result.  A result with [success] true carries the
    time of the clock as [timestamp] and no [error]; every result with
    [success] false carries a string [error] and no [timestamp]. *)
Theorem result_shape (env : Env) (w : World) :
  exists props,
    completion (triggerWorkflow env) w = Return (JObj props)
    /\ ((get_prop "success" props = JBool true
         /\ get_prop "timestamp" props = JStr (now_iso w)
         /\ get_prop "error" props = JUndefined)
        \/ (get_prop "success" props = JBool false
            /\ get_prop "timestamp" props = JUndefined
            /\ exists e, get_prop "error" props = JStr e)).
Proof.
  unfold completion, triggerWorkflow.
  destruct (truthy (GITHUB_TOKEN env)); simpl.
  2: { eexists. split; [reflexivity |]. right. simpl. eauto. }
  unfold try_catch, bind, global_fetch.
  destruct (network w _) as [e | r]; simpl.
  - eexists. split; [reflexivity |]. right. simpl. eauto.
  - destruct (status r =? 204)%Z; simpl.
    + eexists. split; [reflexivity |]. left. simpl. auto.
    + unfold response_text. destruct (text r); simpl;
        (eexists; split; [reflexivity |]; right; simpl; eauto).
Qed.

(** X5: a refusal whose body cannot be read loses its HTTP status.  When
    GitHub answers with a status other than 204, the result reports that
    status and the body as [error] if the body can be read; if reading the
    body throws, the result is the one of the catch block, with the message
    of the exception as [error] and no [status] property. *)
Theorem refusal_report (env : Env) (w : World) (r : NetResponse) :
  truthy (GITHUB_TOKEN env) = true ->
  network w (dispatch_request (GITHUB_TOKEN env)) = Resolved r ->
  status r <> 204%Z ->
  completion (triggerWorkflow env) w =
  Return (match text r with
          | inl body => JObj [ ("success", JBool false);
                               ("status", JNum (status r));
                               ("error", JStr body) ]
          | inr e => JObj [ ("success", JBool false);
                            ("error", JStr (message e)) ]
          end).
Proof.
  intros Htok Hnet Hst. unfold completion, triggerWorkflow.
  rewrite Htok. simpl. unfold try_catch, bind, global_fetch.
  rewrite Hnet. simpl.
  apply Z.eqb_neq in Hst. rewrite Hst. simpl.
  unfold response_text. destruct (text r); reflexivity.
Qed.

(** GitHub answers 500 and the body cannot be read. *)
Lemma refusal_report_witness :
  completion (triggerWorkflow env_with_token) world_broken_body =
  Return (JObj [ ("success", JBool false);
                 ("error", JStr "body stream interrupted") ]).
Proof.
  apply (refusal_report env_with_token world_broken_body
           {| status := 500;
              text := inr {| message := "body stream interrupted" |} |});
    [reflexivity | reflexivity | discriminate].
Defined.

End WorkerMore.

(* ================================================================== *)
(** * More on the driver                                               *)
(* ================================================================== *)

Module DriverMore.
Import Driver FilterFacts DriverFacts.
Local Open Scope list_scope.

(** ** The file name filter *)

(** X6: the sanitized skill name holds only letters, digits, underscores,
    dashes and the line feeds between the lines of a name of several
    lines; in particular no slash, no dot and no space, so the article file
    is an entry of the output directory itself whatever the name of the
    skill; and it does not end with a line feed. *)
Theorem sanitize_safe (SKILL_NAME : string) :
  all_chars (fun c => safe_char c || Ascii.eqb c newline)
    (sanitize SKILL_NAME) = true
  /\ all_chars (fun c => negb (Ascii.eqb c "/") && negb (Ascii.eqb c ".")
                         && negb (Ascii.eqb c " "))
       (sanitize SKILL_NAME) = true
  /\ strip_trailing_newlines (sanitize SKILL_NAME) = sanitize SKILL_NAME.
Proof.
  assert (H : all_chars (fun c => safe_char c || Ascii.eqb c newline)
                (sanitize SKILL_NAME) = true).
  { unfold sanitize. apply strip_all_chars, keep_safe_kept. }
  split; [exact H |]. split.
  - revert H. apply all_chars_weaken. exact kept_char_plain.
  - unfold sanitize. apply strip_twice.
Qed.

(** X7: sanitizing never lengthens a name, and sanitizing a sanitized name
    changes nothing, with one exception: a sanitized name that is an option
    of [echo] (such as [-n], left of [-n!]) is swallowed by [echo] and
    becomes empty. *)
Theorem sanitize_again (SKILL_NAME : string) :
  sanitize (sanitize SKILL_NAME) =
    (if is_echo_option (sanitize SKILL_NAME) then EmptyString
     else sanitize SKILL_NAME)
  /\ (String.length (sanitize SKILL_NAME) <= String.length SKILL_NAME)%nat.
Proof.
  split.
  - destruct (is_echo_option (sanitize SKILL_NAME)) eqn:E.
    + now apply sanitize_option.
    + rewrite (sanitize_text _ E).
      destruct (sanitize_safe SKILL_NAME) as [Hkept [_ Hstrip]].
      rewrite (replace_char_kept " " _ eq_refl Hkept).
      rewrite (replace_char_kept "/" _ eq_refl Hkept).
      now rewrite (keep_safe_fixed _ Hkept).
  - destruct (is_echo_option SKILL_NAME) eqn:E.
    + rewrite (sanitize_option _ E). simpl. lia.
    + rewrite (sanitize_text _ E).
      etransitivity; [apply strip_length |].
      etransitivity; [apply keep_safe_length |].
      now rewrite !replace_char_length.
Qed.

(** X8: a skill whose name is an option of [echo] ([-n], [-e], [-E] or a
    run of these letters after one dash) loses its name: [echo] swallows
    it, the sanitized name is empty, and the article file is
    [OUTPUT_DIR/<date>-.md] on every machine. *)
Theorem echo_option_swallowed (SKILL_NAME : string) :
  is_echo_option SKILL_NAME = true ->
  sanitize SKILL_NAME = EmptyString
  /\ forall (W : Type) (M : Machine W) (ymd : string),
       article_file M ymd SKILL_NAME
       = (OUTPUT_DIR M ++ "/" ++ ymd ++ "-" ++ ".md")%string.
Proof.
  intros H. split; [now apply sanitize_option |].
  intros W M ymd. unfold article_file.
  now rewrite (sanitize_option _ H).
Qed.

(** A skill called [-ne]. *)
Lemma echo_option_swallowed_witness :
  is_echo_option "-ne" = true /\ sanitize "-ne" = EmptyString.
Proof.
  split; [reflexivity |].
  apply (echo_option_swallowed "-ne"). reflexivity.
Defined.

(** ** The JSON block filter *)

(** X9: the JSON block is empty exactly when no line of the selector's
    output starts with an opening brace, and a block that is not empty
    starts with such a line. *)
Theorem sed_json_block_empty_iff (lines : list string) :
  (sed_json_block lines = [] <->
   existsb (starts_with "{"%char) lines = false)
  /\ (forall first rest,
        sed_json_block lines = first :: rest ->
        starts_with "{"%char first = true).
Proof.
  unfold sed_json_block.
  induction lines as [| l lines [IH1 IH2]]; simpl.
  - split; [tauto | discriminate].
  - destruct (starts_with "{"%char l) eqn:E; simpl.
    + split.
      * split; discriminate.
      * intros first rest [= <- _]. exact E.
    + split; assumption.
Qed.

Lemma sed_range_again (b : bool) (lines : list string) :
  sed_range b (sed_range b lines) = sed_range b lines.
Proof.
  revert b. induction lines as [| l lines IH]; intros b; [reflexivity |].
  destruct b; simpl.
  - now rewrite IH.
  - destruct (starts_with "{"%char l) eqn:E; simpl.
    + now rewrite E, IH.
    + apply IH.
Qed.

Lemma sed_range_incl (b : bool) (lines : list string) :
  incl (sed_range b lines) lines.
Proof.
  revert b. induction lines as [| l lines IH]; intros b; simpl.
  - apply incl_refl.
  - destruct b; [| destruct (starts_with "{"%char l)].
    + apply incl_cons; [now left |]. apply incl_tl, IH.
    + apply incl_cons; [now left |]. apply incl_tl, IH.
    + apply incl_tl, IH.
Qed.

(** X10: extracting the JSON block is idempotent and only selects: the
    block of a block is the block itself, and every line of the block is a
    line of the input. *)
Theorem sed_json_block_idempotent (lines : list string) :
  sed_json_block (sed_json_block lines) = sed_json_block lines
  /\ incl (sed_json_block lines) lines.
Proof.
  split; [apply sed_range_again | apply sed_range_incl].
Qed.

End DriverMore.

Module RunMore.
Import Driver DriverFacts.
Local Open Scope list_scope.

(** Split the outline on each test the script makes. *)
Ltac outline_cases M :=
  unfold outline, invoked; sh_norm;
  destruct (count_skills M _) as [[| ?] |] eqn:Ecount; sh_norm;
  [ | destruct (usable_name M _) as [? |] eqn:Ename; sh_norm;
      [ destruct (is_file M _ _) eqn:Efile; sh_norm;
        [ destruct (status _ =? 0)%Z eqn:Emark; sh_norm;
          [ destruct (publish_attempted M _) eqn:Epub; sh_norm | ]
        | ]
      | ]
  | ].

Section Script.

Context {W : Type} (M : Machine W).

(** X11: the script runs its commands in one fixed order and each at most
    once: the commands of any run are a beginning of the sequence fetch,
    select, generate, mark-published, publish. *)
Theorem commands_in_order (w : W) :
  exists file script a rest,
    map command (trace (final_state M w)) ++ rest = full_run file script a.
Proof.
  destruct (run_outline M w) as [_ [Ht _]]. rewrite Ht. clear Ht.
  pose (a0 := {| arg_appid := ""; arg_title := ""; arg_content_file := "";
                 arg_author := "" |}).
  unfold full_run. outline_cases M.
  all: first
    [ exists ""%string, ""%string, a0; eexists; reflexivity
    | eexists; exists ""%string, a0; eexists; reflexivity
    | do 3 eexists; exists []; reflexivity ].
Qed.

(** X12: a run ends with status 0 exactly when the mark-published command
    ran and succeeded; nothing after it can fail the run, and nothing
    before it can be skipped. *)
Theorem success_iff_marked (w : W) :
  final_status M w = 0%Z <-> mark_succeeded (trace (final_state M w)) = true.
Proof.
  destruct (run_outline M w) as [Hs [Ht _]]. rewrite Hs, Ht. clear Hs Ht.
  unfold mark_succeeded. outline_cases M;
    cbn [existsb is_mark_published command exit_status andb orb];
    rewrite ?Emark; split; intros H; try reflexivity; try discriminate.
  apply Z.eqb_neq in Emark. congruence.
Qed.

(** X13: a failure of the mark-published command ends the run at once
    (the script runs under [set -e]): the run exits with the status of that
    command and the publish command is not run. *)
Theorem mark_failure_propagates (w : W) (k : Z) :
  In {| command := select_daily_mark_published; exit_status := k |}
     (trace (final_state M w)) ->
  k <> 0%Z ->
  final_status M w = k
  /\ ran is_publish (trace (final_state M w)) = false.
Proof.
  destruct (run_outline M w) as [Hs [Ht _]]. rewrite Hs, Ht. clear Hs Ht.
  intros Hin Hk. revert Hin. outline_cases M; cbn [In]; intros Hin;
    repeat match goal with
      | H : _ \/ _ |- _ => destruct H
      | H : False |- _ => destruct H
      | H : {| command := _; exit_status := _ |} = _ |- _ =>
          inversion H; clear H
      end; subst.
  all: try (apply Z.eqb_eq in Emark; congruence).
  split; reflexivity.
Qed.

(** X14: what is published is what was generated.  Whenever the publish
    command runs, the API key is set, the commands of the run are the full
    sequence, and the publish command is given the fixed account, the title
    built from the name of the selected skill, and as content the very file
    the generator was asked to write. *)
Theorem publish_arguments (w : W) :
  ran is_publish (trace (final_state M w)) = true ->
  SANGENG_API_KEY M <> ""%string
  /\ exists n file,
       selected_name M w = Some n
       /\ file = article_file M (date_ymd M (world_at_generation M w)) n
       /\ map command (trace (final_state M w)) =
          full_run file (PUBLISH_SCRIPT M)
            {| arg_appid := "wx5c5f1c55d02d1354";
               arg_title := ("每日Skill精选：" ++ n)%string;
               arg_content_file := file;
               arg_author := "三更AI" |}.
Proof.
  destruct (run_outline M w) as [_ [Ht _]]. rewrite Ht. clear Ht.
  intros Hran.
  assert (Hkey : SANGENG_API_KEY M <> ""%string).
  { revert Hran. outline_cases M; try discriminate.
    intros _. unfold publish_attempted in Epub.
    apply andb_prop in Epub as [_ Epub].
    apply negb_true_iff in Epub. now apply String.eqb_neq. }
  split; [exact Hkey |].
  destruct (publish_ran_shape M w Hran) as [n [Hn Hshape]].
  cbv zeta in Hshape. destruct Hshape as [_ [_ Hout]].
  exists n. eexists. split; [exact Hn |]. split; [reflexivity |].
  rewrite Hout. reflexivity.
Qed.

(** X17: nothing is marked published without an article: whenever the
    mark-published command runs, a skill was selected, the generator has
    run for it and its article file is there. *)
Theorem marked_only_with_article (w : W) :
  ran is_mark_published (trace (final_state M w)) = true ->
  exists n file,
    selected_name M w = Some n
    /\ file = article_file M (date_ymd M (world_at_generation M w)) n
    /\ generated_paths (trace (final_state M w)) = [file]
    /\ is_file M file
         (snd (exec M (generate_article file) (world_at_generation M w)))
       = true.
Proof.
  destruct (run_outline M w) as [_ [Ht _]]. rewrite Ht. clear Ht.
  rewrite generated_paths_outline.
  destruct (selected_name M w) as [n |] eqn:Hn.
  - rewrite (outline_selected M w n Hn). unfold after_selection, invoked.
    sh_norm. intros Hran. exists n. eexists.
    split; [reflexivity |]. split; [reflexivity |]. split; [reflexivity |].
    destruct (is_file M _ _); [reflexivity |]. discriminate.
  - unfold selected_name in Hn. unfold outline, invoked.
    destruct (count_skills M _) as [[| k] |]; try discriminate.
    rewrite Hn. discriminate.
Qed.

(** X18: the selector is run exactly when, after step 1, the cache holds
    at least one skill, whether the refresh succeeded or not; otherwise
    the run ends with status 1 and only the refresh was run. *)
Theorem selector_runs_iff_cached (w : W) :
  let w1 := snd (exec M fetch_skills_refresh w) in
  (ran is_select (trace (final_state M w)) = true <->
   exists n, count_skills M w1 = Some (S n))
  /\ (ran is_select (trace (final_state M w)) = false ->
      final_status M w = 1%Z
      /\ map command (trace (final_state M w)) = [fetch_skills_refresh]).
Proof.
  cbv zeta. destruct (run_outline M w) as [Hs [Ht _]]. rewrite Hs, Ht.
  clear Hs Ht. outline_cases M.
  all: split; [split; [intros H; try discriminate; eauto | intros [k Hk];
                        try discriminate; reflexivity]
              | intros H; try discriminate; split; reflexivity].
Qed.

End Script.
End RunMore.

Module LogMore.
Import Driver DriverFacts.
Local Open Scope list_scope.



Section Script.

Context {W : Type} (M : Machine W).

(** X15: the script does not see a failed publish.  When step 5 reaches the
    publish command, it never ends the run, and it appends to the log its
    two progress lines and the output of the command and nothing else,
    whatever the exit status of the command: the warning of the [||]
    branch is never written, the status of the pipeline being that of
    [tee]. *)
Theorem publish_status_ignored (SKILL_NAME ARTICLE_FILE : string)
  (s : ShState W) :
  publish_attempted M (world s) = true ->
  let w := world s in
  let c5 := publish_command M SKILL_NAME ARTICLE_FILE in
  publish_step M SKILL_NAME ARTICLE_FILE s =
  (Next tt,
   mk (snd (exec M c5 w))
      (LOG_FILE s
       ++ [ log_line (date_ymd M w) (date_hms M w)
              "Step 5: Publishing to WeChat...";
            log_line (date_ymd M w) (date_hms M w)
              "Found wechat-publish skill, attempting to publish..." ]
       ++ output (fst (exec M c5 w)))
      (trace s ++ [invoked M c5 w])).
Proof.
  unfold publish_attempted, publish_command, invoked, mk. intros Hatt.
  apply andb_prop in Hatt as [Hatt Hkey]. apply andb_prop in Hatt as [Hd Hf].
  apply negb_true_iff in Hkey. cbv zeta.
  sh_unfold. rewrite Hd. sh_norm. rewrite Hf. sh_norm. rewrite Hkey.
  sh_paths M. all: sh_clean.
  sh_norm. rewrite <- !app_assoc. reflexivity.
Qed.





End Script.
End LogMore.

(* ================================================================== *)
(** * The driver's properties at concrete runs                         *)
(* ================================================================== *)

Module RunWitnesses.
Import Ledger Selector Driver Sim DriverFacts RunMore LogMore.
Local Open Scope list_scope.

(** The ledger file cannot be written: the mark-published command fails
    with status 1. *)
Lemma mark_failure_propagates_witness :
  In {| command := select_daily_mark_published; exit_status := 1 |}
     (trace (final_state (machine "key")
               {| store := fresh_store;
                  cond := set_ledger_writable false good_day |}))
  /\ final_status (machine "key")
       {| store := fresh_store; cond := set_ledger_writable false good_day |}
     = 1%Z.
Proof.
  assert (H : In {| command := select_daily_mark_published; exit_status := 1 |}
                (trace (final_state (machine "key")
                          {| store := fresh_store;
                             cond := set_ledger_writable false good_day |}))).
  { vm_compute. do 3 right. left. reflexivity. }
  split; [exact H |].
  apply (mark_failure_propagates (machine "key")
           {| store := fresh_store;
              cond := set_ledger_writable false good_day |} 1%Z H).
  discriminate.
Defined.

(** A day on which everything works. *)
Lemma publish_arguments_witness :
  ran is_publish
    (trace (final_state (machine "key")
              {| store := fresh_store; cond := good_day |})) = true
  /\ SANGENG_API_KEY (machine "key") <> ""%string.
Proof.
  split; [vm_compute; reflexivity |].
  apply (publish_arguments (machine "key")
           {| store := fresh_store; cond := good_day |}).
  vm_compute. reflexivity.
Defined.

(** Step 5 with the channel down. *)
Lemma publish_status_ignored_witness :
  publish_attempted (machine "key")
    (world (start {| store := fresh_store;
                     cond := set_channel false good_day |})) = true
  /\ fst (publish_step (machine "key") "Skill B" "article.md"
            (start {| store := fresh_store;
                      cond := set_channel false good_day |}))
     = Next tt.
Proof.
  assert (H : publish_attempted (machine "key")
                (world (start {| store := fresh_store;
                                 cond := set_channel false good_day |}))
              = true) by (vm_compute; reflexivity).
  split; [exact H |].
  pose proof (publish_status_ignored (machine "key") "Skill B" "article.md"
                (start {| store := fresh_store;
                          cond := set_channel false good_day |}) H) as E.
  cbv zeta in E. rewrite E. reflexivity.
Defined.

(** A day on which everything works: B is marked, and its article is
    there. *)
Lemma marked_only_with_article_witness :
  ran is_mark_published
    (trace (final_state (machine "key")
              {| store := fresh_store; cond := good_day |})) = true
  /\ exists n file,
       selected_name (machine "key")
         {| store := fresh_store; cond := good_day |} = Some n
       /\ file = article_file (machine "key")
                   (date_ymd (machine "key")
                      (world_at_generation (machine "key")
                         {| store := fresh_store; cond := good_day |})) n
       /\ generated_paths
            (trace (final_state (machine "key")
                      {| store := fresh_store; cond := good_day |})) = [file]
       /\ is_file (machine "key") file
            (snd (exec (machine "key") (generate_article file)
                    (world_at_generation (machine "key")
                       {| store := fresh_store; cond := good_day |})))
          = true.
Proof.
  assert (H : ran is_mark_published
                (trace (final_state (machine "key")
                          {| store := fresh_store; cond := good_day |}))
              = true) by (vm_compute; reflexivity).
  split; [exact H |].
  exact (marked_only_with_article (machine "key")
           {| store := fresh_store; cond := good_day |} H).
Defined.

End RunWitnesses.
